(** * CTD hysteresis test of rugliderqc: shallow embedding and properties

    The development embeds [scripts/ctd_hysteresis_test.py] (the pairing and
    classification engine) and the discovery filter and per-sample maximum of
    [scripts/summarize_qartod_flags.py].

    Conventions of the embedding:
    - a numpy float is [float := option Q]: [None] is not-a-number, a defined
      sample is an exact rational (rounding is not modelled);
    - a Python exception is a [Raise e] result; [try/except] is a [match];
    - a local name that may be unbound ([ds2], [f2skip]) is an [option];
    - an xarray dataset is an insertion-ordered dictionary of data arrays;
    - the file system is the list of the queue's files by position: a file is
      readable (it holds a dataset) or raises [OSError] when opened;
    - shapely's polygon area, pandas' interpolation and the repository's own
      [rugliderqc.common.convert_epoch_ts] are section variables. *)

From Stdlib Require Import QArith Lqa.
From stdpp Require Import base list strings sorting.

#[local] Set Warnings "-clear-no-such-hyp".

(** ** Exceptions *)

Inductive exn :=
| OSError | IndexError | KeyError | UnboundLocalError | ValueError | TypeError.

Inductive result (A : Type) :=
| Ok (a : A)
| Raise (e : exn).
Arguments Ok {A} a.
Arguments Raise {A} e.

#[global] Instance result_ret : MRet result := @Ok.
#[global] Instance result_bind : MBind result :=
  λ A B f m, match m with Ok a => f a | Raise e => Raise e end.

(** ** Numbers *)

(** A numpy float64 sample: [None] is NaN. *)
Definition float := option Q.

Definition isnan (x : float) : bool :=
  match x with None => true | Some _ => false end.

Definition Qltb (x y : Q) : bool := negb (Qle_bool y x).

(** The result of a float division, which may leave the rationals. *)
Inductive np_float :=
| Finite (q : Q)
| PosInf
| NegInf
| NaN.

(** [a / b] on float64 scalars: a zero divisor gives an infinity or NaN (numpy
    warns, it does not raise). *)
Definition np_div (a b : Q) : np_float :=
  if Qeq_bool b 0 then
    (if Qltb 0 a then PosInf else if Qltb a 0 then NegInf else NaN)
  else Finite (a / b).

(** [x > y] with [y] finite. *)
Definition np_gt (x : np_float) (y : Q) : bool :=
  match x with
  | Finite q => Qltb y q
  | PosInf => true
  | NegInf => false
  | NaN => false
  end.

(** ** numpy arrays *)

Inductive ndarray :=
| Float64 (v : list float)
| Int32 (v : list Z).

(** The samples of an array read as floats (an integer is never NaN). *)
Definition as_float (a : ndarray) : list float :=
  match a with
  | Float64 v => v
  | Int32 v => (λ z, Some (inject_Z z)) <$> v
  end.

(** [np.where(mask)[0]]: the positions where [mask] holds, in order. *)
Fixpoint where_from (k : nat) (mask : list bool) : list nat :=
  match mask with
  | [] => []
  | b :: m => if b then k :: where_from (S k) m else where_from (S k) m
  end.

Definition np_where (mask : list bool) : list nat := where_from 0 mask.

(** [a[idx] = v] for an index array: [IndexError] when a position is out of
    range, else every listed position is overwritten. *)
Definition set_index {A} (a : list A) (idx : list nat) (v : A) : result (list A) :=
  if forallb (λ i, i <? length a)%nat idx
  then Ok (foldr (λ i acc, <[i:=v]> acc) a idx)
  else Raise IndexError.

Definition Qmaxb (x y : Q) : Q := if Qle_bool x y then y else x.
Definition Qminb (x y : Q) : Q := if Qle_bool x y then x else y.

(** The defined samples of an array. *)
Definition valid (v : list float) : list Q := omap id v.

(** [np.nanmax]: [ValueError] on an empty array, NaN when every sample is
    NaN (with a warning only). *)
Definition nanmax (v : list float) : result float :=
  match v with
  | [] => Raise ValueError
  | _ => Ok (match valid v with
             | [] => None
             | x :: xs => Some (foldl Qmaxb x xs)
             end)
  end.

Definition nanmin (v : list float) : result float :=
  match v with
  | [] => Raise ValueError
  | _ => Ok (match valid v with
             | [] => None
             | x :: xs => Some (foldl Qminb x xs)
             end)
  end.

(** Float subtraction: NaN is absorbing. *)
Definition fsub (x y : float) : float :=
  match x, y with
  | Some a, Some b => Some (a - b)%Q
  | _, _ => None
  end.

(** [np.nanmax(v) - np.nanmin(v)] *)
Definition nanrange (v : list float) : result float :=
  hi ← nanmax v; lo ← nanmin v; Ok (fsub hi lo).

(** ** Strings *)

(** Python's [sub in s]. *)
Definition str_in (sub s : string) : bool :=
  match String.index 0 sub s with Some _ => true | None => false end.

Definition upper_ascii (c : Ascii.ascii) : Ascii.ascii :=
  let n := Ascii.nat_of_ascii c in
  if ((97 <=? n) && (n <=? 122))%nat then Ascii.ascii_of_nat (n - 32) else c.

Definition lower_ascii (c : Ascii.ascii) : Ascii.ascii :=
  let n := Ascii.nat_of_ascii c in
  if ((65 <=? n) && (n <=? 90))%nat then Ascii.ascii_of_nat (n + 32) else c.

Fixpoint lower_string (s : string) : string :=
  match s with
  | EmptyString => EmptyString
  | String c r => String (lower_ascii c) (lower_string r)
  end.

(** [str.capitalize] on ASCII text. *)
Definition capitalize (s : string) : string :=
  match s with
  | EmptyString => EmptyString
  | String c r => String (upper_ascii c) (lower_string r)
  end.

(** ** Dictionaries (insertion ordered, as Python's) *)

Definition dict (V : Type) := list (string * V).

Fixpoint dict_get {V} (d : dict V) (k : string) : option V :=
  match d with
  | [] => None
  | (k', v) :: r => if String.eqb k' k then Some v else dict_get r k
  end.

(** [d[k] = v]: overwrite in place, or append a new key. *)
Fixpoint dict_set {V} (d : dict V) (k : string) (v : V) : dict V :=
  match d with
  | [] => [(k, v)]
  | (k', v') :: r =>
      if String.eqb k' k then (k', v) :: r else (k', v') :: dict_set r k v
  end.

Definition dict_keys {V} (d : dict V) : list string := d.*1.

(** ** Datasets *)

Record thresholds := {
  test_threshold : Q;
  suspect_threshold : Q;
  fail_threshold : Q
}.

Inductive attr :=
| AttrStr (s : string)
| AttrByte (z : Z)
| AttrBytes (l : list Z)
| AttrConfig (t : thresholds).   (* [str(thresholds)] *)

Record DataArray := {
  values : ndarray;
  attrs : dict attr
}.

Record Dataset := {
  data_vars : dict DataArray;
  time : list Q;
  history : option string
}.

(** [dataset[name]] for a data variable ([KeyError] is [None]). *)
Definition getitem (ds : Dataset) (name : string) : option DataArray :=
  dict_get (data_vars ds) name.

(** [dataset[name] = da] *)
Definition setitem (ds : Dataset) (name : string) (da : DataArray) : Dataset :=
  {| data_vars := dict_set (data_vars ds) name da;
     time := time ds;
     history := history ds |}.

Definition set_history (ds : Dataset) (h : string) : Dataset :=
  {| data_vars := data_vars ds; time := time ds; history := Some h |}.

(** ** QARTOD flag codes ([ioos_qc.qartod.QartodFlags]) *)

Inductive QartodFlags := GOOD | UNKNOWN | SUSPECT | FAIL | MISSING.

Definition code (f : QartodFlags) : Z :=
  match f with
  | GOOD => 1 | UNKNOWN => 2 | SUSPECT => 3 | FAIL => 4 | MISSING => 9
  end%Z.

(** Severity of a pair's classification: GOOD < SUSPECT < FAIL. *)
Definition severity (f : QartodFlags) : nat :=
  match f with
  | GOOD => 0 | SUSPECT => 1 | FAIL => 2 | UNKNOWN => 0 | MISSING => 0
  end.

(** ** The functions of ctd_hysteresis_test.py *)

(** [append_ancillary_variables(data_array, qc_variable_name)]: the data
    array is the dataset's own (no copy), so the caller stores the result
    back. Joining a non-string attribute raises [TypeError]. *)
Definition append_ancillary_variables (data_array : DataArray)
    (qc_variable_name : string) : result DataArray :=
  match dict_get (attrs data_array) "ancillary_variables" with
  | None =>
      Ok {| values := values data_array;
            attrs := dict_set (attrs data_array) "ancillary_variables"
                       (AttrStr qc_variable_name) |}
  | Some (AttrStr old) =>
      Ok {| values := values data_array;
            attrs := dict_set (attrs data_array) "ancillary_variables"
                       (AttrStr (old +:+ " " +:+ qc_variable_name)) |}
  | Some _ => Raise TypeError
  end.

(** [qv_vals == 2 or qv_vals == 3 or qv_vals == 4] on one sample. *)
Definition flagged (x : float) : bool :=
  match x with
  | None => false
  | Some q => Qeq_bool q 2 || Qeq_bool q 3 || Qeq_bool q 4
  end.

(** [datacopy[qv_idx] = np.nan]: an integer array cannot hold NaN. *)
Definition set_nan (datacopy : ndarray) (qv_idx : list nat) : result ndarray :=
  match datacopy with
  | Float64 v => v' ← set_index v qv_idx None; Ok (Float64 v')
  | Int32 v =>
      if forallb (λ i, i <? length v)%nat qv_idx
      then match qv_idx with [] => Ok (Int32 v) | _ => Raise ValueError end
      else Raise IndexError
  end.

(** [apply_qartod_qc(dataset, varname)] *)
Definition apply_qartod_qc (dataset : Dataset) (varname : string) : result ndarray :=
  match getitem dataset varname with
  | None => Raise KeyError
  | Some da =>
      foldl (λ acc qv,
               datacopy ← acc;
               match getitem dataset qv with
               | None => Raise KeyError
               | Some qda =>
                   let qv_vals := as_float (values qda) in
                   let qv_idx := np_where (flagged <$> qv_vals) in
                   set_nan datacopy qv_idx
               end)
            (Ok (values da))
            (filter (λ x, str_in (varname +:+ "_qartod") x = true)
                    (dict_keys (data_vars dataset)))
  end.

(** The flag array of [initialize_flags] for one array of samples: 2
    (NOT_EVALUATED/UNKNOWN) everywhere, then MISSING where the sample is NaN.
    The array holds whole numbers only and is kept as integers. *)
Definition initial_flags (vals : ndarray) : list nat * list Z :=
  let non_nan_ind := (λ x, negb (isnan x)) <$> as_float vals in
  let non_nan_i := np_where non_nan_ind in
  let flags :=
    (λ b : bool, if b then 2%Z else code MISSING) <$> non_nan_ind in
  (non_nan_i, flags).

(** [initialize_flags(dataset, varname)] *)
Definition initialize_flags (dataset : Dataset) (varname : string)
    : result (list nat * list Z) :=
  match getitem dataset varname with
  | None => Raise KeyError
  | Some da => Ok (initial_flags (values da))
  end.

(** [add_da(dataset, flag_array, attributes, test_varname, qc_variable_name)]:
    coordinates and dimensions are those of [dataset[test_varname]], which
    every call site has checked to exist; the encoding is not modelled. *)
Definition add_da (dataset : Dataset) (flag_array : list Z) (attributes : dict attr)
    (test_varname qc_variable_name : string) : Dataset :=
  setitem dataset qc_variable_name
    {| values := Int32 flag_array; attrs := attributes |}.

(** [set_hysteresis_attrs(test, sensor, thresholds)] *)
Definition set_hysteresis_attrs (test sensor : string) (thr : option thresholds)
    : dict attr :=
  let flag_meanings := "GOOD NOT_EVALUATED SUSPECT FAIL MISSING" in
  let flag_values := [1; 2; 3; 4; 9]%Z in
  let long_name :=
    if str_in "ctd" test then "CTD Hysteresis Test Quality Flag"
    else capitalize sensor +:+ " Hysteresis Test Quality Flag" in
  let comment :=
    "Test for " +:+ sensor +:+
    " lag, determined by comparing the area between profile pairs normalized to pressure range against the data range multiplied by thresholds found in flag_configurations." in
  let attrs :=
    [("comment", AttrStr comment);
     ("long_name", AttrStr long_name);
     ("flag_values", AttrBytes flag_values);
     ("flag_meanings", AttrStr flag_meanings);
     ("valid_min", AttrByte (foldr Z.min 9%Z flag_values));
     ("valid_max", AttrByte (foldr Z.max 1%Z flag_values));
     ("qc_target", AttrStr sensor)] in
  match thr with
  | Some t => dict_set attrs "flag_configurations" (AttrConfig t)
  | None => attrs
  end.

(** ** The scan of [main]: state *)

Record counters := {
  failed_profiles : nat;
  suspect_profiles : nat;
  not_evaluated_profiles : nat
}.

(** What [main] writes to the deployment log inside the scan; a file is named
    by its position in [ncfiles]. *)
Inductive log_entry :=
| ErrorReadingFile (path : nat)
| DebugNotFound (testvar : string) (path : nat)
| DebugDataNotFound (testvar : string) (path : nat).

(** A file of the queue: opening it gives a dataset or raises [OSError]. *)
Inductive file :=
| Readable (d : Dataset)
| Unreadable.

(** [xr.open_dataset(ncfiles[path]).load()] *)
Definition open_dataset (files : list file) (path : nat) : result Dataset :=
  match files !! path with
  | None => Raise IndexError
  | Some Unreadable => Raise OSError
  | Some (Readable d) => Ok d
  end.

(** The local names of [main] that the loop over the tested variables reads
    and writes while one file is the current one. [l_ds2 = None] says that the
    name [ds2] is unbound. *)
Record locals := {
  l_status : Z;
  l_f2skip : nat;
  l_ds : Dataset;
  l_ds2 : option Dataset;
  l_summary : dict counters;
  l_log : list log_entry
}.

Definition set_status (z : Z) (st : locals) : locals :=
  {| l_status := z; l_f2skip := l_f2skip st; l_ds := l_ds st;
     l_ds2 := l_ds2 st; l_summary := l_summary st; l_log := l_log st |}.

Definition incr_f2skip (st : locals) : locals :=
  {| l_status := l_status st; l_f2skip := l_f2skip st + 1; l_ds := l_ds st;
     l_ds2 := l_ds2 st; l_summary := l_summary st; l_log := l_log st |}.

Definition set_ds (d : Dataset) (st : locals) : locals :=
  {| l_status := l_status st; l_f2skip := l_f2skip st; l_ds := d;
     l_ds2 := l_ds2 st; l_summary := l_summary st; l_log := l_log st |}.

Definition set_ds2 (d : option Dataset) (st : locals) : locals :=
  {| l_status := l_status st; l_f2skip := l_f2skip st; l_ds := l_ds st;
     l_ds2 := d; l_summary := l_summary st; l_log := l_log st |}.

Definition set_summary (s : dict counters) (st : locals) : locals :=
  {| l_status := l_status st; l_f2skip := l_f2skip st; l_ds := l_ds st;
     l_ds2 := l_ds2 st; l_summary := s; l_log := l_log st |}.

Definition add_log (e : log_entry) (st : locals) : locals :=
  {| l_status := l_status st; l_f2skip := l_f2skip st; l_ds := l_ds st;
     l_ds2 := l_ds2 st; l_summary := l_summary st; l_log := l_log st ++ [e] |}.

(** [summary[testvar][key] += n] for the three counters. *)
Definition dict_update {V} (d : dict V) (k : string) (f : V → V) : dict V :=
  match dict_get d k with
  | Some v => dict_set d k (f v)
  | None => d
  end.

Definition add_not_evaluated (n : nat) (c : counters) : counters :=
  {| failed_profiles := failed_profiles c;
     suspect_profiles := suspect_profiles c;
     not_evaluated_profiles := not_evaluated_profiles c + n |}.

Definition add_suspect (n : nat) (c : counters) : counters :=
  {| failed_profiles := failed_profiles c;
     suspect_profiles := suspect_profiles c + n;
     not_evaluated_profiles := not_evaluated_profiles c |}.

Definition add_failed (n : nat) (c : counters) : counters :=
  {| failed_profiles := failed_profiles c + n;
     suspect_profiles := suspect_profiles c;
     not_evaluated_profiles := not_evaluated_profiles c |}.

Definition count (testvar : string) (f : counters → counters) (st : locals) : locals :=
  set_summary (dict_update (l_summary st) testvar f) st.

(** ** Direction of a profile *)

Inductive direction := Down | Up.

(** Lines 326-335, on the first and last defined masked pressure of the
    current profile: "if profile is up ... else: first profile is down". *)
Definition current_direction (first last : Q) : direction :=
  if Qltb last first then Up else Down.

(** Lines 401-410, on the lookahead profile: "if second profile is also down
    ... else: first profile is down and second profile is up". *)
Definition lookahead_direction (first last : Q) : direction :=
  if Qltb first last then Down else Up.

(** [v[0]] and [v[-1]] of an array: [IndexError] when it is empty. *)
Definition first_last {A} (v : list A) : result (A * A) :=
  match v, last v with
  | x :: _, Some y => Ok (x, y)
  | _, _ => Raise IndexError
  end.

(** Lines 316-320: [np.isnan(pressure_diff) or pressure_diff < 5]. *)
Definition below_floor (pressure_diff : float) : bool :=
  match pressure_diff with
  | None => true
  | Some d => Qltb d 5
  end.

(** ** Classification of a pair *)

(** A data frame with the columns [testvar] and [pressure], one row per time
    stamp: the merge on [time] of two arrays of one dataset pairs the samples
    by position. *)
Definition dataframe := list (float * float).

Definition merge_on_time (data pressure : list float) : dataframe :=
  zip data pressure.

(** [df.dropna(subset=["pressure", testvar])] *)
Definition dropna (df : dataframe) : list (Q * Q) :=
  omap (λ row, match row with
               | (Some x, Some p) => Some (x, p)
               | _ => None
               end) df.

(** Maximum minus minimum of a column without NaN; [np.nanmax] raises
    [ValueError] on an empty column. *)
Definition column_range (col : list Q) : result Q :=
  match col with
  | [] => Raise ValueError
  | x :: xs => Ok (foldl Qmaxb x xs - foldl Qminb x xs)%Q
  end.

(** Lines 476-477: [polygon_points.append(polygon_points[0])]. *)
Definition close_ring (df : list (Q * Q)) : result (list (Q * Q)) :=
  match df with
  | [] => Raise IndexError
  | p0 :: _ => Ok (df ++ [p0])
  end.

(** Lines 489-507: the flag from the normalized area, the data range and the
    two ratios. *)
Definition area_flag (thr : thresholds) (area : np_float) (data_range : Q)
    : QartodFlags :=
  if np_gt area (data_range * fail_threshold thr)%Q then FAIL
  else if np_gt area (data_range * suspect_threshold thr)%Q then SUSPECT
  else GOOD.

(** Line 243 *)
Definition test_varnames : list string := ["conductivity"; "temperature"].

Section Engine.

(** shapely: [MultiPolygon(polygonize(ring.intersection(ring))).area] of
    the closed ring through the given points; it may raise. *)
Variable polygon_area : list (Q * Q) → result Q.

(** pandas: [Series.interpolate(method="linear", limit_direction="both",
    limit=2)]. *)
Variable interpolate : list float → list float.

(** [rugliderqc.common.convert_epoch_ts]: the time stamps of a time
    coordinate, here in seconds. *)
Variable convert_epoch_ts : list Q → list Q.

(** The time stamp and [os.path.basename(__file__)] of the history line. *)
Variable now : string.
Variable script : string.

(** The loaded threshold configuration. *)
Variable config_dict : dict thresholds.

(** Lines 463-515: ranges of the combined points, then the flag. *)
Definition hysteresis_flag (thr : thresholds) (df : list (Q * Q))
    : result QartodFlags :=
  pressure_range ← column_range (df.*2);
  data_range ← column_range (df.*1);
  if Qltb (test_threshold thr) data_range then
    polygon_points ← close_ring df;
    a ← polygon_area polygon_points;
    let area := np_div a pressure_range in
    Ok (area_flag thr area data_range)
  else Ok GOOD.

(** Lines 429-461: the combined points of the pair. *)
Definition pair_points (data_copy pressure_copy data_copy2 pressure_copy2
    : list float) : list (Q * Q) :=
  let df := merge_on_time data_copy pressure_copy in
  let df2 := merge_on_time data_copy2 pressure_copy2 in
  let df := zip (df.*1) (interpolate (df.*2)) in
  let df2 := zip (df2.*1) (interpolate (df2.*2)) in
  dropna (df ++ df2).

(** [np.sum(~np.isnan(a)) > 0] *)
Definition has_data (a : list float) : bool :=
  (0 <? length (valid a))%nat.

(** The counters of a joint classification (lines 496 and 504). *)
Definition count_flag (testvar : string) (flag : QartodFlags) (st : locals)
    : locals :=
  match flag with
  | FAIL => count testvar (add_failed 2) st
  | SUSPECT => count testvar (add_suspect 2) st
  | _ => st
  end.

(** Both profiles keep their initial flags (lines 395-398, 525-528 and
    532-535). *)
Definition both_not_evaluated (testvar qc_varname : string) (attrs : dict attr)
    (flag_vals flag_vals2 : list Z) (d2 : Dataset) (st : locals) : locals :=
  let st := set_ds (add_da (l_ds st) flag_vals attrs testvar qc_varname) st in
  let st := set_ds2 (Some (add_da d2 flag_vals2 attrs testvar qc_varname)) st in
  incr_f2skip (count testvar (add_not_evaluated 2) st).

(** Lines 419-528: the pair is structurally valid. *)
Definition evaluate_pair (testvar qc_varname : string) (attrs : dict attr)
    (thr : thresholds) (data_idx : list nat) (flag_vals : list Z)
    (data_idx2 : list nat) (flag_vals2 : list Z)
    (pressure_copy pressure_copy2 : ndarray) (d2 : Dataset) (st : locals)
    : result locals :=
  data_copy ← apply_qartod_qc (l_ds st) testvar;
  data_copy2 ← apply_qartod_qc d2 testvar;
  if has_data (as_float data_copy) && has_data (as_float data_copy2) then
    let df := pair_points (as_float data_copy) (as_float pressure_copy)
                (as_float data_copy2) (as_float pressure_copy2) in
    flag ← hysteresis_flag thr df;
    let st := count_flag testvar flag st in
    flag_vals ← set_index flag_vals data_idx (code flag);
    flag_vals2 ← set_index flag_vals2 data_idx2 (code flag);
    let st := set_ds (add_da (l_ds st) flag_vals attrs testvar qc_varname) st in
    let st := set_ds2 (Some (add_da d2 flag_vals2 attrs testvar qc_varname)) st in
    Ok (incr_f2skip st)
  else
    Ok (both_not_evaluated testvar qc_varname attrs flag_vals flag_vals2 d2 st).

(** Lines 381-535: the lookahead has the tested variable. *)
Definition check_lookahead (testvar qc_varname : string) (attrs : dict attr)
    (thr : thresholds) (data_idx : list nat) (flag_vals : list Z)
    (pressure_copy : ndarray) (d2 : Dataset) (st : locals)
    : result (bool * locals) :=
  '(data_idx2, flag_vals2) ← initialize_flags d2 testvar;
  pressure_copy2 ← apply_qartod_qc d2 "pressure";
  let pvals2 := as_float pressure_copy2 in
  pressure_diff2 ← nanrange pvals2;
  if below_floor pressure_diff2 then
    Ok (false,
        both_not_evaluated testvar qc_varname attrs flag_vals flag_vals2 d2 st)
  else
    '(first2, last2) ← first_last (valid pvals2);
    match lookahead_direction first2 last2 with
    | Down =>
        let st := set_ds (add_da (l_ds st) flag_vals attrs testvar qc_varname) st in
        Ok (true, count testvar (add_not_evaluated 1) st)
    | Up =>
        '(_, ds_last) ← first_last (convert_epoch_ts (time (l_ds st)));
        '(ds2_first, _) ← first_last (convert_epoch_ts (time d2));
        if Qltb (ds2_first - ds_last) 300 then
          st ← evaluate_pair testvar qc_varname attrs thr data_idx flag_vals
                 data_idx2 flag_vals2 pressure_copy pressure_copy2 d2 st;
          Ok (true, st)
        else
          Ok (true,
              both_not_evaluated testvar qc_varname attrs flag_vals flag_vals2
                d2 st)
    end.

(** [append_ancillary_variables(ds[v], qc_varname)] on a dataset; [ds[v]]
    raises [KeyError] when the variable is absent. *)
Definition append_to (d : Dataset) (v qc_varname : string) : result Dataset :=
  match getitem d v with
  | None => Raise KeyError
  | Some da =>
      da' ← append_ancillary_variables da qc_varname;
      Ok (setitem d v da')
  end.

(** Lines 539-545 and 550-556: the same on the lookahead, inside
    [try ... except (KeyError, NameError): pass], and only when the
    lookahead holds the flag channel. *)
Definition try_append_to_ds2 (v qc_varname : string) (st : locals)
    : result locals :=
  match l_ds2 st with
  | None => Ok st
  | Some d2 =>
      match getitem d2 qc_varname with
      | None => Ok st
      | Some _ =>
          match append_to d2 v qc_varname with
          | Ok d2' => Ok (set_ds2 (Some d2') st)
          | Raise KeyError => Ok st
          | Raise e => Raise e
          end
      end
  end.

(** One variable in lines 537-556. *)
Definition link (v qc_varname : string) (st : locals) : result locals :=
  d ← append_to (l_ds st) v qc_varname;
  try_append_to_ds2 v qc_varname (set_ds d st).

(** Lines 537-556: the ancillary linkage at the end of the loop body. *)
Definition link_ancillary (testvar qc_varname : string) (st : locals)
    : result locals :=
  st ← link testvar qc_varname st;
  st ← link "salinity" qc_varname st;
  link "density" qc_varname st.

(** Lines 336-351: the current profile is down and is the last file. *)
Definition no_more_files (testvar qc_varname : string) (attrs : dict attr)
    (flag_vals : list Z) (st : locals) : result locals :=
  let d := add_da (l_ds st) flag_vals attrs testvar qc_varname in
  d ← append_to d testvar qc_varname;
  d ← append_to d "salinity" qc_varname;
  d ← append_to d "density" qc_varname;
  Ok (count testvar (add_not_evaluated 1) (set_ds d st)).

(** Lines 353-366: bind [ds2] unless it is bound already. *)
Definition load_lookahead (files : list file) (f2 : nat) (st : locals)
    : result locals :=
  match l_ds2 st with
  | Some _ => Ok st
  | None =>
      match open_dataset files f2 with
      | Ok d2 => Ok (set_ds2 (Some d2) st)
      | Raise OSError =>
          Ok (incr_f2skip (set_status 1 (add_log (ErrorReadingFile f2) st)))
      | Raise e => Raise e
      end
  end.

(** Lines 335-535: the current profile is down. *)
Definition pair_with_next (files : list file) (i : nat)
    (testvar qc_varname : string) (attrs : dict attr) (thr : thresholds)
    (data_idx : list nat) (flag_vals : list Z) (pressure_copy : ndarray)
    (st : locals) : result (bool * locals) :=
  if (length files <=? i + 1)%nat then
    st ← no_more_files testvar qc_varname attrs flag_vals st;
    Ok (false, st)
  else
    st ← load_lookahead files (i + 1) st;
    match l_ds2 st with
    | None => Raise UnboundLocalError
    | Some d2 =>
        match getitem d2 testvar with
        | None =>
            let st := set_status 1 (add_log (DebugNotFound testvar (i + 1)) st) in
            let st := set_ds (add_da (l_ds st) flag_vals attrs testvar qc_varname) st in
            Ok (false, count testvar (add_not_evaluated 1) st)
        | Some _ =>
            check_lookahead testvar qc_varname attrs thr data_idx flag_vals
              pressure_copy d2 st
        end
    end.

(** Lines 283-535 for one tested variable. The boolean tells whether
    control reaches line 537 ([true]) or the body was left by [continue]
    ([false]). *)
Definition test_variable (files : list file) (i : nat) (testvar : string)
    (st : locals) : result (bool * locals) :=
  match dict_get config_dict (testvar +:+ "_hysteresis_test") with
  | None => Raise KeyError
  | Some hysteresis_thresholds =>
    match getitem (l_ds st) testvar with
    | None => Ok (false, set_status 1 (add_log (DebugNotFound testvar i) st))
    | Some _ =>
      let qc_varname := testvar +:+ "_hysteresis_test" in
      let attrs :=
        set_hysteresis_attrs qc_varname testvar (Some hysteresis_thresholds) in
      '(data_idx, flag_vals) ← initialize_flags (l_ds st) testvar;
      if (length data_idx =? 0)%nat then
        Ok (false, set_status 1 (add_log (DebugDataNotFound testvar i) st))
      else
        pressure_copy ← apply_qartod_qc (l_ds st) "pressure";
        let pvals := as_float pressure_copy in
        pressure_diff ← nanrange pvals;
        if below_floor pressure_diff then
          let st := set_ds (add_da (l_ds st) flag_vals attrs testvar qc_varname) st in
          Ok (false, count testvar (add_not_evaluated 1) st)
        else
          '(first, last) ← first_last (valid pvals);
          match current_direction first last with
          | Up =>
              let st := set_ds (add_da (l_ds st) flag_vals attrs testvar qc_varname) st in
              Ok (true, count testvar (add_not_evaluated 1) st)
          | Down =>
              pair_with_next files i testvar qc_varname attrs
                hysteresis_thresholds data_idx flag_vals pressure_copy st
          end
    end
  end.

(** The body of the loop over [test_varnames] (lines 282-556). *)
Definition loop_body (files : list file) (i : nat) (st : locals)
    (testvar : string) : result locals :=
  '(reaches_537, st) ← test_variable files i testvar st;
  if reaches_537 : bool
  then link_ancillary testvar (testvar +:+ "_hysteresis_test") st
  else Ok st.



(** ** The loop over the files (lines 253-579) *)

(** The local names of [main] that live across the files of one deployment.
    [r_f2skip = None] and [r_ds2 = None] say that the name is unbound. *)
Record run := {
  r_status : Z;
  r_skip : nat;
  r_f2skip : option nat;
  r_ds2 : option Dataset;
  r_summary : dict counters;
  r_files : list file;
  r_log : list log_entry
}.

(** A [for] loop whose body may raise. *)
Fixpoint for_each {A S : Type} (body : S → A → result S) (l : list A) (s : S)
    : result S :=
  match l with
  | [] => Ok s
  | x :: r => s' ← body s x; for_each body r s'
  end.

(** Lines 558-565 and 570-575: the history line. *)
Definition update_history (d : Dataset) : Dataset :=
  match history d with
  | None => set_history d (now +:+ ": " +:+ script)
  | Some h => set_history d (h +:+ " " +:+ now +:+ ": " +:+ script)
  end.

(** Lines 256-261: [skip] grows by one when the previous file consumed its
    lookahead; reading the unbound [f2skip] is caught. *)
Definition next_skip (r : run) : nat :=
  match r_f2skip r with
  | Some n => if (0 <? n)%nat then r_skip r + 1 else r_skip r
  | None => r_skip r
  end.

(** The body of the loop over [enumerate(ncfiles)] at counter [k]. *)
Definition file_step (r : run) (k : nat) : result run :=
  let skip := next_skip r in
  let i := k + skip in
  if (length (r_files r) <=? i)%nat then
    Ok {| r_status := r_status r; r_skip := skip; r_f2skip := r_f2skip r;
          r_ds2 := r_ds2 r; r_summary := r_summary r; r_files := r_files r;
          r_log := r_log r |}
  else
    match open_dataset (r_files r) i with
    | Raise OSError =>
        Ok {| r_status := 1; r_skip := skip; r_f2skip := r_f2skip r;
              r_ds2 := r_ds2 r; r_summary := r_summary r;
              r_files := r_files r;
              r_log := r_log r ++ [ErrorReadingFile i] |}
    | Raise IndexError =>
        Ok {| r_status := r_status r; r_skip := skip; r_f2skip := r_f2skip r;
              r_ds2 := r_ds2 r; r_summary := r_summary r;
              r_files := r_files r; r_log := r_log r |}
    | Raise e => Raise e
    | Ok d =>
        let st := {| l_status := r_status r; l_f2skip := 0; l_ds := d;
                     l_ds2 := r_ds2 r; l_summary := r_summary r;
                     l_log := r_log r |} in
        st ← for_each (loop_body (r_files r) i) test_varnames st;
        let files := <[i := Readable (update_history (l_ds st))]> (r_files r) in
        let files :=
          match l_ds2 st with
          | Some d2 => <[i + 1 := Readable (update_history d2)]> files
          | None => files
          end in
        Ok {| r_status := l_status st; r_skip := skip;
              r_f2skip := Some (l_f2skip st); r_ds2 := None;
              r_summary := l_summary st; r_files := files;
              r_log := l_log st |}
    end.

(** Lines 245-251: the summary starts at zero for every tested variable. *)
Definition empty_summary : dict counters :=
  foldl (λ s tv, dict_set s tv {| failed_profiles := 0; suspect_profiles := 0;
                                  not_evaluated_profiles := 0 |})
        [] test_varnames.

Definition start (files : list file) : run :=
  {| r_status := 0; r_skip := 0; r_f2skip := None; r_ds2 := None;
     r_summary := empty_summary; r_files := files; r_log := [] |}.

(** Lines 231-579 for one deployment whose configuration was loaded: the
    scan of the queue. An empty queue is reported as an error. *)
Definition scan (files : list file) : result run :=
  if (length files =? 0)%nat then
    Ok {| r_status := 1; r_skip := 0; r_f2skip := None; r_ds2 := None;
          r_summary := []; r_files := files; r_log := [] |}
  else for_each file_step (seq 0 (length files)) (start files).

End Engine.


(** ** What the scan may do to a file *)

(** The name of the flag channel of a tested variable (line 295). *)
Definition qc_name (testvar : string) : string := testvar +:+ "_hysteresis_test".

(** The samples of a channel of a dataset. *)
Definition vals (d : Dataset) (name : string) : option ndarray :=
  values <$> getitem d name.

(** The masked pressure of a profile is all NaN or spans less than 5 units
    (lines 316-320 and 389-393). *)
Definition degenerate (d : Dataset) : Prop :=
  ∃ pressure_copy pressure_diff,
    apply_qartod_qc d "pressure" = Ok pressure_copy ∧
    nanrange (as_float pressure_copy) = Ok pressure_diff ∧
    below_floor pressure_diff = true.

(** The outcomes of a joint classification. *)
Definition is_classification (c : QartodFlags) : Prop :=
  c = GOOD ∨ c = SUSPECT ∨ c = FAIL.

(** The flag arrays that the scan commits for a channel of raw samples: the
    initial flags, or, when the profile [may_classify], the initial flags
    with one classification written at every defined sample. *)
Definition engine_flags (may_classify : Prop) (raw : ndarray) (flags : list Z)
    : Prop :=
  flags = (initial_flags raw).2 ∨
  (may_classify ∧
   ∃ c, is_classification c ∧
        set_index (initial_flags raw).2 (initial_flags raw).1 (code c) = Ok flags).

(** Link one variable of a dataset to a flag channel (as [append_to], which
    is stated inside the section of the engine). *)
Definition linked (d : Dataset) (v qc_varname : string) (d' : Dataset) : Prop :=
  ∃ da da', getitem d v = Some da ∧
            append_ancillary_variables da qc_varname = Ok da' ∧
            d' = setitem d v da'.

(** The history [h] keeps an earlier history as its beginning. *)
Definition history_extends (old : option string) (h : string) : Prop :=
  match old with
  | None => True
  | Some o => ∃ suffix, h = o +:+ suffix
  end.

(** [touched may_classify d d']: the dataset [d'] comes from [d] by the
    writes of the scan only, which are flag channels of tested variables,
    ancillary links to them, and history lines. *)
Inductive touched (may_classify : Prop) (d : Dataset) : Dataset → Prop :=
| touched_refl : touched may_classify d d
| touched_commit d' tv raw flags attrs :
    touched may_classify d d' →
    tv ∈ test_varnames →
    vals d' tv = Some raw →
    engine_flags may_classify raw flags →
    touched may_classify d (add_da d' flags attrs tv (qc_name tv))
| touched_link d' d'' v tv :
    touched may_classify d d' →
    tv ∈ test_varnames →
    linked d' v (qc_name tv) d'' →
    touched may_classify d d''
| touched_history d' h :
    touched may_classify d d' →
    history_extends (history d') h →
    touched may_classify d (set_history d' h).

(** The lookahead that the loop body works on at file [i]: the bound [ds2],
    else the next file if it opens. *)
Definition lookahead (files : list file) (i : nat) (st : locals) : option Dataset :=
  match l_ds2 st with
  | Some d2 => Some d2
  | None =>
      match open_dataset files (i + 1) with
      | Ok d2 => Some d2
      | Raise _ => None
      end
  end.

(** The lookahead after a step comes from the lookahead before it. *)
Definition lookahead_touched (files : list file) (i : nat) (st st' : locals)
    : Prop :=
  match l_ds2 st' with
  | None => l_ds2 st = None
  | Some d2' =>
      ∃ d2, lookahead files i st = Some d2 ∧ touched (¬ degenerate d2) d2 d2'
  end.

(** A file after the scan comes from the file before it. *)
Definition file_touched (f f' : file) : Prop :=
  match f, f' with
  | Readable d, Readable d' => touched True d d'
  | Unreadable, Unreadable => True
  | _, _ => False
  end.

(** No sample of a committed channel of [d'] classifies the profile: the
    channel of the tested variable is the one of [d], or it is the initial
    flags of the raw samples. *)
Definition not_evaluated_only (testvar : string) (d d' : Dataset) : Prop :=
  vals d' testvar = vals d testvar ∧
  (vals d' (qc_name testvar) = vals d (qc_name testvar) ∨
   ∃ raw, vals d testvar = Some raw ∧
          vals d' (qc_name testvar) = Some (Int32 (initial_flags raw).2)).

(** [d'] comes from [d] by ancillary links only. *)
Definition follows (d d' : Dataset) : Prop :=
  ∀ P d0, touched P d0 d → touched P d0 d'.

Definition lookahead_follows (o o' : option Dataset) : Prop :=
  match o with
  | None => o' = None
  | Some d2 => ∃ d2', o' = Some d2' ∧ follows d2 d2'
  end.

(** The codes of a flag channel (the [flag_values] attribute). *)
Definition flag_values : list Z := [1; 2; 3; 4; 9]%Z.

(** ** The downstream summary step (summarize_qartod_flags.py) *)

(** Lines 147-152: the discovery filter of the per-test flag channels. *)
Definition is_qartod_var (x : string) : bool :=
  str_in "_qartod_" x && negb (str_in "_qartod_climatology" x).

Definition qartod_vars (ds : Dataset) : list string :=
  filter (λ x, is_qartod_var x = true) (dict_keys (data_vars ds)).

(** [x.split("_qartod_")[0]] *)
Definition sensor_of (x : string) : string :=
  match String.index 0 "_qartod_" x with
  | Some n => String.substring 0 n x
  | None => x
  end.

(** Line 158: the sensors that were checked ([np.unique] sorts). *)
Definition qc_vars (qartod_vars : list string) : list string :=
  remove_dups (merge_sort (λ x y : string, String.leb x y) (sensor_of <$> qartod_vars)).

(** Lines 164-166 *)
Definition sensor_qartod_vars (qartod_vars : list string) (sensor : string)
    : list string :=
  filter (λ x, str_in (sensor +:+ "_qartod_") x = true) qartod_vars.






(** ** The classification in the words of the specification *)

(** "if dataRange ≤ test_threshold, classify GOOD. Otherwise: FAIL if
    normalizedArea > dataRange × fail_threshold; else SUSPECT if
    normalizedArea > dataRange × suspect_threshold; else GOOD." *)
Definition spec_classification (thr : thresholds) (dataRange : Q)
    (normalizedArea : np_float) : QartodFlags :=
  if Qle_bool dataRange (test_threshold thr) then GOOD
  else if np_gt normalizedArea (dataRange * fail_threshold thr)%Q then FAIL
  else if np_gt normalizedArea (dataRange * suspect_threshold thr)%Q then SUSPECT
  else GOOD.

(** ** Sample data for the worked cases *)

Definition samples (l : list Q) : ndarray := Float64 (Some <$> l).

Definition channel (a : ndarray) : DataArray := {| values := a; attrs := [] |}.

(** A profile file with the five channels of the input interface. *)
Definition profile (pressure conductivity temperature : ndarray) (t : list Q)
    : Dataset :=
  {| data_vars := [("pressure", channel pressure);
                   ("conductivity", channel conductivity);
                   ("temperature", channel temperature);
                   ("salinity", channel conductivity);
                   ("density", channel conductivity)];
     time := t;
     history := None |}.

Definition sample_config : dict thresholds :=
  [("conductivity_hysteresis_test",
    {| test_threshold := 1 # 2; suspect_threshold := 1 # 10;
       fail_threshold := 3 # 10 |});
   ("temperature_hysteresis_test",
    {| test_threshold := 1 # 2; suspect_threshold := 1 # 10;
       fail_threshold := 3 # 10 |})].

(** A descending cast over 10 dbar with one missing conductivity sample. *)
Definition down_profile : Dataset :=
  profile (samples [0; 5; 10]%Q) (Float64 [Some 1; None; Some 3]%Q)
          (samples [20; 15; 10]%Q) [0; 60; 120]%Q.

(** The ascending cast that follows it one minute later. *)
Definition up_profile : Dataset :=
  profile (samples [10; 5; 0]%Q) (Float64 [Some 3; Some 2; None]%Q)
          (samples [10; 15; 20]%Q) [180; 240; 300]%Q.

(** A cast that spans 2 dbar only. *)
Definition shallow_profile : Dataset :=
  profile (samples [0; 1; 2]%Q) (Float64 [Some 1; None; Some 3]%Q)
          (samples [20; 19; 18]%Q) [0; 60; 120]%Q.

(** A cast that ends at the pressure it started from. *)
Definition returning_profile : Dataset :=
  profile (samples [0; 10; 0]%Q) (samples [1; 2; 3]%Q)
          (samples [20; 15; 20]%Q) [0; 60; 120]%Q.

(** The scan with a fixed area for every ring, no interpolation and time
    stamps already in seconds. *)
Definition sample_scan (area : Q) (files : list file) : result run :=
  scan (λ _, Ok area) id id "2024-12-20T00:00:00Z" "ctd_hysteresis_test.py"
       sample_config files.

(** The flag channel of a tested variable in a file of the queue. *)
Definition flags_in (files : list file) (path : nat) (testvar : string)
    : option ndarray :=
  match files !! path with
  | Some (Readable d) => values <$> getitem d (testvar +:+ "_hysteresis_test")
  | _ => None
  end.

(** The ancillary linkage of a variable in a file of the queue. *)
Definition ancillary_in (files : list file) (path : nat) (v : string)
    : option attr :=
  match files !! path with
  | Some (Readable d) =>
      da ← getitem d v; dict_get (attrs da) "ancillary_variables"
  | _ => None
  end.

(** ** The mask of the earlier tests, sample by sample *)

(** The channel [qv] of [d] holds 2, 3 or 4 at sample [j]. *)
Definition flagged_by (d : Dataset) (j : nat) (qv : string) : bool :=
  match getitem d qv with
  | Some qda =>
      match as_float (values qda) !! j with
      | Some y => flagged y
      | None => false
      end
  | None => false
  end.

(** The channels that [apply_qartod_qc] reads for a variable. *)
Definition qartod_channels (d : Dataset) (varname : string) : list string :=
  filter (λ x, str_in (varname +:+ "_qartod") x = true) (dict_keys (data_vars d)).

(** Some channel read for the variable holds 2, 3 or 4 at sample [j]. *)
Definition masked (d : Dataset) (varname : string) (j : nat) : bool :=
  existsb (flagged_by d j) (qartod_channels d varname).

(** [down_profile] with an earlier spike test that fails its last
    conductivity sample. *)
Definition spiked_profile : Dataset :=
  setitem down_profile "conductivity_qartod_spike_test"
    {| values := Int32 [1; 1; 4]%Z; attrs := [] |}.

(** [down_profile] with an earlier test that flags both defined conductivity
    samples. *)
Definition masked_profile : Dataset :=
  setitem down_profile "conductivity_qartod_flat_line_test"
    {| values := Int32 [3; 1; 4]%Z; attrs := [] |}.

(** A pair whose conductivity is defined only where the pressure is not. *)
Definition gappy_down : Dataset :=
  profile (Float64 [Some 0; None; Some 10]%Q) (Float64 [None; Some 1; None]%Q)
          (samples [20; 15; 10]%Q) [0; 60; 120]%Q.

Definition gappy_up : Dataset :=
  profile (Float64 [Some 10; None; Some 0]%Q) (Float64 [None; Some 2; None]%Q)
          (samples [10; 15; 20]%Q) [180; 240; 300]%Q.

(** [returning_profile] one minute after [down_profile]. *)
Definition returning_later : Dataset :=
  profile (samples [0; 10; 0]%Q) (samples [1; 2; 3]%Q)
          (samples [20; 15; 20]%Q) [180; 240; 300]%Q.

(** A cast of five samples with an earlier test that gives them the codes
    1, 2, 3, 4 and 9. *)
Definition coded_profile : Dataset :=
  setitem (profile (samples [0; 2; 5; 8; 10]%Q) (samples [1; 2; 3; 4; 5]%Q)
                   (samples [20; 18; 15; 12; 10]%Q) [0; 30; 60; 90; 120]%Q)
    "conductivity_qartod_gross_range_test"
    {| values := Int32 [1; 2; 3; 4; 9]%Z; attrs := [] |}.

(** ** The bookkeeping of one pass of the loop body *)



(** The status and the log go together: both are left alone, or the status
    is set to 1 and the log grows. *)
Definition status_log (st st' : locals) : Prop :=
  (l_status st' = l_status st ∧ l_log st' = l_log st) ∨
  (l_status st' = 1%Z ∧ ∃ es, es ≠ [] ∧ l_log st' = l_log st ++ es).



(** * Properties *)

(** ** Comparisons *)

Lemma Qltb_lt x y : Qltb x y = true ↔ (x < y)%Q.
Proof.
  unfold Qltb. rewrite negb_true_iff. split.
  - intros H. apply Qnot_le_lt. intros Hle.
    apply Qle_bool_iff in Hle. congruence.
  - intros H. destruct (Qle_bool y x) eqn:E; [|done].
    apply Qle_bool_iff in E. exfalso. lra.
Qed.

Lemma Qltb_ge x y : Qltb x y = false ↔ (y <= x)%Q.
Proof.
  unfold Qltb. rewrite negb_false_iff. apply Qle_bool_iff.
Qed.


(** ** The result monad *)

Lemma bind_Ok {A B} (m : result A) (f : A → result B) (b : B) :
  m ≫= f = Ok b → ∃ a, m = Ok a ∧ f a = Ok b.
Proof. destruct m as [a|e]; [eauto|discriminate]. Qed.

(** Invert one successful step of a computation in [result]. *)
Tactic Notation "inv_ok" hyp(H) "as" ident(a) ident(Ha) :=
  apply bind_Ok in H as (a & Ha & H).

(** ** Index arrays *)

Lemma elem_of_where_from (mask : list bool) (k j : nat) :
  j ∈ where_from k mask ↔ (k ≤ j)%nat ∧ mask !! (j - k)%nat = Some true.
Proof.
  revert k. induction mask as [|b m IH]; intros k; simpl.
  - rewrite elem_of_nil. naive_solver.
  - destruct (decide (j = k)) as [->|Hne].
    + replace (k - k)%nat with 0%nat by lia. simpl.
      destruct b.
      * rewrite elem_of_cons. naive_solver.
      * rewrite IH. split; [lia|]. intros [_ [=]].
    + assert (Hiff : (S k ≤ j)%nat ∧ m !! (j - S k)%nat = Some true
                     ↔ (k ≤ j)%nat ∧ (b :: m) !! (j - k)%nat = Some true).
      { destruct (decide (k ≤ j)%nat) as [Hle|Hgt]; [|lia].
        replace (j - k)%nat with (S (j - S k)) by lia. simpl.
        split; intros [? ?]; split; auto; lia. }
      destruct b; [rewrite elem_of_cons|]; rewrite IH, Hiff; naive_solver.
Qed.

Lemma elem_of_np_where (mask : list bool) (j : nat) :
  j ∈ np_where mask ↔ mask !! j = Some true.
Proof.
  unfold np_where. rewrite elem_of_where_from.
  replace (j - 0)%nat with j by lia. split; [tauto|split; [lia|done]].
Qed.

Lemma np_where_lt (mask : list bool) :
  forallb (λ i, i <? length mask)%nat (np_where mask) = true.
Proof.
  apply forallb_forall. intros j Hj. apply list_elem_of_In in Hj.
  apply elem_of_np_where in Hj. apply lookup_lt_Some in Hj.
  by apply Nat.ltb_lt.
Qed.

Lemma foldr_insert_length {A} (a : list A) (idx : list nat) (v : A) :
  length (foldr (λ i acc, <[i:=v]> acc) a idx) = length a.
Proof. induction idx as [|i idx IH]; simpl; [done|]. by rewrite length_insert. Qed.

Lemma foldr_insert_lookup {A} (a : list A) (idx : list nat) (v : A) (j : nat) :
  (j < length a)%nat →
  foldr (λ i acc, <[i:=v]> acc) a idx !! j
  = if decide (j ∈ idx) then Some v else a !! j.
Proof.
  intros Hj. induction idx as [|i idx IH]; cbn [foldr].
  - case_decide as Hin; [|done]. by apply elem_of_nil in Hin.
  - destruct (decide (i = j)) as [->|Hne].
    + rewrite list_lookup_insert_eq by by rewrite foldr_insert_length.
      destruct (decide (j ∈ j :: idx)) as [Hin|Hin]; [done|].
      exfalso. apply Hin, elem_of_cons. by left.
    + rewrite list_lookup_insert_ne by done. rewrite IH.
      destruct (decide (j ∈ idx)) as [Hin|Hnin];
        destruct (decide (j ∈ i :: idx)) as [Hin'|Hnin']; try done; exfalso.
      * apply Hnin', elem_of_cons. by right.
      * apply elem_of_cons in Hin' as [->|?]; [by apply Hne|done].
Qed.

Lemma set_index_Ok {A} (a : list A) (idx : list nat) (v : A) :
  forallb (λ i, i <? length a)%nat idx = true →
  set_index a idx v = Ok (foldr (λ i acc, <[i:=v]> acc) a idx).
Proof. intros H. unfold set_index. by rewrite H. Qed.

Lemma set_index_inv {A} (a a' : list A) (idx : list nat) (v : A) :
  set_index a idx v = Ok a' →
  length a' = length a ∧
  ∀ j, (j < length a)%nat →
       a' !! j = if decide (j ∈ idx) then Some v else a !! j.
Proof.
  unfold set_index. destruct (forallb _ idx); [|discriminate].
  intros [= <-]. split; [apply foldr_insert_length|].
  intros j Hj. by apply foldr_insert_lookup.
Qed.

(** ** [initialize_flags] *)

Lemma initial_flags_length (vals : ndarray) :
  length (initial_flags vals).2 = length (as_float vals).
Proof. unfold initial_flags. simpl. by rewrite !length_fmap. Qed.

Lemma initial_flags_lookup (vals : ndarray) (j : nat) (x : float) :
  as_float vals !! j = Some x →
  (initial_flags vals).2 !! j = Some (if isnan x then 9%Z else 2%Z).
Proof.
  intros H. unfold initial_flags. simpl.
  rewrite !list_lookup_fmap, H. simpl. by destruct (isnan x).
Qed.

Lemma initial_flags_idx (vals : ndarray) (j : nat) :
  j ∈ (initial_flags vals).1 ↔ ∃ q, as_float vals !! j = Some (Some q).
Proof.
  unfold initial_flags. simpl. rewrite elem_of_np_where, list_lookup_fmap.
  destruct (as_float vals !! j) as [[q|]|]; simpl; naive_solver.
Qed.

Lemma initial_flags_idx_lt (vals : ndarray) :
  forallb (λ i, i <? length (initial_flags vals).2)%nat (initial_flags vals).1 = true.
Proof.
  apply forallb_forall. intros j Hj. apply list_elem_of_In in Hj.
  apply initial_flags_idx in Hj as [q Hq]. apply lookup_lt_Some in Hq.
  rewrite initial_flags_length. by apply Nat.ltb_lt.
Qed.

(** C8: the flag array built by [initialize_flags] has the length of the
    variable's channel, holds MISSING (9) exactly at the samples whose raw
    value is NaN and NOT_EVALUATED (2) at all the others; the index array
    returned with it lists exactly the defined samples. *)
Theorem C8_initialize_flags (dataset : Dataset) (varname : string) (da : DataArray) :
  getitem dataset varname = Some da →
  ∃ non_nan_i flags,
    initialize_flags dataset varname = Ok (non_nan_i, flags) ∧
    length flags = length (as_float (values da)) ∧
    (∀ j x, as_float (values da) !! j = Some x →
            (isnan x = true → flags !! j = Some (code MISSING)) ∧
            (isnan x = false → flags !! j = Some 2%Z)) ∧
    (∀ j, j ∈ non_nan_i ↔ ∃ q, as_float (values da) !! j = Some (Some q)).
Proof.
  intros Hda. unfold initialize_flags. rewrite Hda.
  destruct (initial_flags (values da)) as [idx flags] eqn:E.
  exists idx, flags. split; [done|].
  pose proof (initial_flags_length (values da)) as Hlen.
  pose proof (initial_flags_idx (values da)) as Hidx.
  rewrite E in Hlen, Hidx. simpl in Hlen, Hidx.
  split; [done|]. split; [|done].
  intros j x Hx. pose proof (initial_flags_lookup _ _ _ Hx) as Hj.
  rewrite E in Hj. simpl in Hj.
  split; intros Hnan; by rewrite Hnan in Hj.
Qed.

Lemma C8_initialize_flags_witness :
  ∃ non_nan_i flags,
    initialize_flags down_profile "conductivity" = Ok (non_nan_i, flags) ∧
    length flags = 3%nat ∧
    (∀ j x, [Some 1%Q; None; Some 3%Q] !! j = Some x →
            (isnan x = true → flags !! j = Some 9%Z) ∧
            (isnan x = false → flags !! j = Some 2%Z)) ∧
    (∀ j, j ∈ non_nan_i ↔ ∃ q, [Some 1%Q; None; Some 3%Q] !! j = Some (Some q)).
Proof.
  exact (C8_initialize_flags down_profile "conductivity"
           (channel (Float64 [Some 1%Q; None; Some 3%Q])) eq_refl).
Defined.

(** ** Classification against the thresholds *)

Lemma Qltb_proper (x x' y y' : Q) :
  (x == x')%Q → (y == y')%Q → Qltb x y = Qltb x' y'.
Proof.
  intros Hx Hy. destruct (Qltb x' y') eqn:E.
  - apply Qltb_lt. apply Qltb_lt in E. lra.
  - apply Qltb_ge. apply Qltb_ge in E. lra.
Qed.

Lemma np_gt_mono (x : np_float) (y y' : Q) :
  (y <= y')%Q → np_gt x y' = true → np_gt x y = true.
Proof.
  destruct x as [q| | |]; simpl; try done.
  rewrite !Qltb_lt. lra.
Qed.

Lemma foldl_Qminb_le (xs : list Q) (x : Q) : (foldl Qminb x xs <= x)%Q.
Proof.
  revert x. induction xs as [|a xs IH]; intros x; simpl; [lra|].
  specialize (IH (Qminb x a)). unfold Qminb in *.
  destruct (Qle_bool x a) eqn:E; [done|].
  assert (¬ (x <= a)%Q) by (rewrite <- Qle_bool_iff; congruence). lra.
Qed.

Lemma foldl_Qmaxb_ge (xs : list Q) (x : Q) : (x <= foldl Qmaxb x xs)%Q.
Proof.
  revert x. induction xs as [|a xs IH]; intros x; simpl; [lra|].
  specialize (IH (Qmaxb x a)). unfold Qmaxb in *.
  destruct (Qle_bool x a) eqn:E; [|done].
  apply Qle_bool_iff in E. lra.
Qed.

(** A range is a maximum minus a minimum of the same samples. *)
Lemma column_range_nonneg (col : list Q) (r : Q) :
  column_range col = Ok r → (0 <= r)%Q.
Proof.
  destruct col as [|x xs]; [discriminate|]. intros [= <-].
  pose proof (foldl_Qminb_le xs x). pose proof (foldl_Qmaxb_ge xs x). lra.
Qed.

Lemma column_range_nonempty (col : list Q) (r : Q) :
  column_range col = Ok r → col ≠ [].
Proof. by destruct col. Qed.

(** Raising the two ratios never raises the severity of [area_flag]. *)
Lemma area_flag_mono (thr thr' : thresholds) (area : np_float) (data_range : Q) :
  (0 <= data_range)%Q →
  (suspect_threshold thr <= suspect_threshold thr')%Q →
  (fail_threshold thr <= fail_threshold thr')%Q →
  (severity (area_flag thr' area data_range)
   ≤ severity (area_flag thr area data_range))%nat.
Proof.
  intros Hdr Hs Hf. unfold area_flag.
  assert (Hmf : (data_range * fail_threshold thr
                 <= data_range * fail_threshold thr')%Q) by nra.
  assert (Hms : (data_range * suspect_threshold thr
                 <= data_range * suspect_threshold thr')%Q) by nra.
  destruct (np_gt area (data_range * fail_threshold thr')) eqn:F'.
  - by rewrite (np_gt_mono _ _ _ Hmf F').
  - destruct (np_gt area (data_range * suspect_threshold thr')) eqn:S'.
    + destruct (np_gt area (data_range * fail_threshold thr)); simpl; [lia|].
      by rewrite (np_gt_mono _ _ _ Hms S').
    + simpl. lia.
Qed.

(** The flag in the words of the specification, on the float quotient. *)
Lemma hysteresis_flag_spec (polygon_area : list (Q * Q) → result Q)
    (thr : thresholds) (df ring : list (Q * Q))
    (pressureRange dataRange unionArea : Q) :
  column_range (df.*2) = Ok pressureRange →
  column_range (df.*1) = Ok dataRange →
  close_ring df = Ok ring →
  polygon_area ring = Ok unionArea →
  hysteresis_flag polygon_area thr df
  = Ok (spec_classification thr dataRange (np_div unionArea pressureRange)).
Proof.
  intros Hp Hd Hring Ha. unfold hysteresis_flag, spec_classification.
  rewrite Hp, Hd. simpl. unfold Qltb. rewrite Hring. simpl. rewrite Ha. simpl.
  by destruct (Qle_bool dataRange (test_threshold thr)).
Qed.

(** The float quotient by a non-zero range is the rational quotient. *)
Lemma np_div_finite (a b : Q) : ¬ (b == 0)%Q → np_div a b = Finite (a / b).
Proof.
  intros Hb. unfold np_div. destruct (Qeq_bool b 0) eqn:E; [|done].
  by apply Qeq_bool_iff in E.
Qed.

(** C4: for the combined points of a pair with their pressure range and data
    range, a data range not above [test_threshold] gives GOOD whatever the
    geometry does (it is not run). Otherwise, with the union area of the
    closed ring and a pressure range that is not zero, the pair is FAIL when
    [unionArea / pressureRange > dataRange * fail_threshold], else SUSPECT
    when [unionArea / pressureRange > dataRange * suspect_threshold], else
    GOOD. *)
Theorem C4_classification (polygon_area : list (Q * Q) → result Q)
    (thr : thresholds) (df : list (Q * Q)) (pressureRange dataRange : Q) :
  column_range (df.*2) = Ok pressureRange →
  column_range (df.*1) = Ok dataRange →
  ((dataRange <= test_threshold thr)%Q →
   hysteresis_flag polygon_area thr df = Ok GOOD) ∧
  (∀ ring unionArea,
     close_ring df = Ok ring →
     polygon_area ring = Ok unionArea →
     ¬ (pressureRange == 0)%Q →
     (test_threshold thr < dataRange)%Q →
     ((dataRange * fail_threshold thr < unionArea / pressureRange)%Q →
      hysteresis_flag polygon_area thr df = Ok FAIL) ∧
     ((unionArea / pressureRange <= dataRange * fail_threshold thr)%Q →
      (dataRange * suspect_threshold thr < unionArea / pressureRange)%Q →
      hysteresis_flag polygon_area thr df = Ok SUSPECT) ∧
     ((unionArea / pressureRange <= dataRange * fail_threshold thr)%Q →
      (unionArea / pressureRange <= dataRange * suspect_threshold thr)%Q →
      hysteresis_flag polygon_area thr df = Ok GOOD)).
Proof.
  intros Hp Hd. split.
  - intros Hle. unfold hysteresis_flag. rewrite Hp, Hd. simpl.
    by apply Qltb_ge in Hle as ->.
  - intros ring a Hring Ha Hnz Hgt.
    rewrite (hysteresis_flag_spec _ thr _ _ _ _ _ Hp Hd Hring Ha).
    unfold spec_classification. rewrite (np_div_finite _ _ Hnz). simpl.
    destruct (Qle_bool dataRange (test_threshold thr)) eqn:E.
    { apply Qle_bool_iff in E. lra. }
    split; [|split].
    + intros Hf. by apply Qltb_lt in Hf as ->.
    + intros Hf Hs. apply Qltb_ge in Hf as ->. by apply Qltb_lt in Hs as ->.
    + intros Hf Hs. apply Qltb_ge in Hf as ->. by apply Qltb_ge in Hs as ->.
Qed.

Lemma C4_classification_witness :
  let thr := {| test_threshold := 1 # 2; suspect_threshold := 1 # 10;
                fail_threshold := 3 # 10 |} in
  let df := [(1, 0); (3, 10); (3, 10); (2, 5)]%Q in
  hysteresis_flag (λ _, Ok 8%Q) thr df = Ok FAIL ∧
  hysteresis_flag (λ _, Ok 4%Q) thr df = Ok SUSPECT ∧
  hysteresis_flag (λ _, Ok 1%Q) thr df = Ok GOOD ∧
  hysteresis_flag (λ _, Ok 8%Q)
    {| test_threshold := 2; suspect_threshold := 1 # 10;
       fail_threshold := 3 # 10 |} df = Ok GOOD.
Proof.
  intros thr df.
  assert (Hnz : ¬ (10 - 0 == 0)%Q) by (intros H; vm_compute in H; discriminate H).
  assert (Hgt : (test_threshold thr < 3 - 1)%Q) by (vm_compute; reflexivity).
  split; [|split; [|split]].
  - refine (proj1 (proj2 (C4_classification (λ _, Ok 8%Q) thr df (10 - 0) (3 - 1)
                            eq_refl eq_refl) _ 8%Q eq_refl eq_refl Hnz Hgt) _).
    vm_compute. reflexivity.
  - refine (proj1 (proj2 (proj2 (C4_classification (λ _, Ok 4%Q) thr df (10 - 0)
                                   (3 - 1) eq_refl eq_refl)
                            _ 4%Q eq_refl eq_refl Hnz Hgt)) _ _).
    + vm_compute. discriminate.
    + vm_compute. reflexivity.
  - refine (proj2 (proj2 (proj2 (C4_classification (λ _, Ok 1%Q) thr df (10 - 0)
                                   (3 - 1) eq_refl eq_refl)
                            _ 1%Q eq_refl eq_refl Hnz Hgt)) _ _).
    + vm_compute. discriminate.
    + vm_compute. discriminate.
  - refine (proj1 (C4_classification (λ _, Ok 8%Q)
                     {| test_threshold := 2; suspect_threshold := 1 # 10;
                        fail_threshold := 3 # 10 |} df (10 - 0) (3 - 1)
                     eq_refl eq_refl) _).
    vm_compute. discriminate.
Defined.

(** C6: for fixed points (hence a fixed area and data range) and a fixed
    [test_threshold], whenever the pair is classified under [thr] it is also
    classified under thresholds whose [fail_threshold] and
    [suspect_threshold] are not lower, and the classification is not more
    severe (GOOD < SUSPECT < FAIL). *)
Theorem C6_threshold_monotone (polygon_area : list (Q * Q) → result Q)
    (thr thr' : thresholds) (df : list (Q * Q)) (c : QartodFlags) :
  (test_threshold thr' == test_threshold thr)%Q →
  (suspect_threshold thr <= suspect_threshold thr')%Q →
  (fail_threshold thr <= fail_threshold thr')%Q →
  hysteresis_flag polygon_area thr df = Ok c →
  ∃ c', hysteresis_flag polygon_area thr' df = Ok c' ∧
        (severity c' ≤ severity c)%nat.
Proof.
  intros Ht Hs Hf. unfold hysteresis_flag. intros H.
  inv_ok H as pr Hpr. rewrite Hpr. simpl.
  inv_ok H as dr Hdr. rewrite Hdr. simpl.
  rewrite (Qltb_proper _ (test_threshold thr) _ dr Ht (Qeq_refl dr)).
  destruct (Qltb (test_threshold thr) dr).
  - inv_ok H as ring Hring. rewrite Hring. simpl.
    inv_ok H as a Ha. rewrite Ha. simpl.
    injection H as <-. eexists. split; [done|].
    apply area_flag_mono; [|done..]. by eapply column_range_nonneg.
  - injection H as <-. by exists GOOD.
Qed.

Lemma C6_threshold_monotone_witness :
  ∃ c', hysteresis_flag (λ _, Ok 4%Q)
          {| test_threshold := 1 # 2; suspect_threshold := 1 # 10;
             fail_threshold := 3 # 10 |}
          [(1, 0); (3, 10); (3, 10); (2, 5)]%Q = Ok c' ∧
        (severity c' ≤ severity FAIL)%nat.
Proof.
  apply (C6_threshold_monotone (λ _, Ok 4%Q)
           {| test_threshold := 1 # 2; suspect_threshold := 1 # 20;
              fail_threshold := 3 # 20 |}).
  - reflexivity.
  - simpl. lra.
  - simpl. lra.
  - reflexivity.
Defined.

(** ** Direction of a profile *)

(** C5 (code defect): the test of the current profile is "first > last is
    up, else down" (lines 326-335), so a profile whose masked pressure passes
    the floor and ends where it started is taken for a down profile, where
    the claim and the test of the lookahead (lines 401-405, "first < last is
    down, else up") take it for an up profile. [returning_profile] has masked
    pressure 0, 10, 0: as the current file it is paired with the up profile
    that follows and both are classified, which happens to a down profile
    only (an up profile in its place keeps the flags it came with and the
    next file is tested on its own); as the lookahead of a down profile it is
    paired as the up profile. *)
Theorem C5_equal_ends_current_is_down :
  apply_qartod_qc returning_profile "pressure" = Ok (samples [0; 10; 0]%Q) ∧
  nanrange (as_float (samples [0; 10; 0]%Q)) = Ok (Some (10 - 0)%Q) ∧
  below_floor (Some (10 - 0)%Q) = false ∧
  first_last (valid (as_float (samples [0; 10; 0]%Q))) = Ok (0%Q, 0%Q) ∧
  (∃ r, sample_scan 100 [Readable returning_profile; Readable up_profile] = Ok r ∧
        r_f2skip r = Some 2%nat ∧
        flags_in (r_files r) 0 "conductivity" = Some (Int32 [4; 4; 4]%Z) ∧
        flags_in (r_files r) 1 "conductivity" = Some (Int32 [4; 4; 9]%Z)) ∧
  (∃ r, sample_scan 100 [Readable up_profile; Readable up_profile] = Ok r ∧
        r_f2skip r = Some 0%nat ∧
        flags_in (r_files r) 0 "conductivity" = Some (Int32 [2; 2; 9]%Z) ∧
        flags_in (r_files r) 1 "conductivity" = Some (Int32 [2; 2; 9]%Z)) ∧
  (∃ r, sample_scan 100 [Readable down_profile; Readable returning_later] = Ok r ∧
        r_f2skip r = Some 2%nat ∧
        flags_in (r_files r) 0 "conductivity" = Some (Int32 [4; 9; 4]%Z) ∧
        flags_in (r_files r) 1 "conductivity" = Some (Int32 [4; 4; 4]%Z)).
Proof.
  do 4 (split; [reflexivity|]).
  repeat split; (eexists; split; [vm_compute; reflexivity|]); repeat split.
Qed.

(** ** Two defects, run on sample queues *)

(** C1 (code defect): the lookahead of a down profile cannot be opened. The
    handler logs, sets the status and counts the skip, but [ds2] stays
    unbound and line 369 reads it: the [UnboundLocalError] is not a
    [KeyError], nothing catches it, and the run ends there. *)
Theorem C1_lookahead_read_failure_aborts :
  load_lookahead [Readable down_profile; Unreadable] 1
    {| l_status := 0; l_f2skip := 0; l_ds := down_profile; l_ds2 := None;
       l_summary := []; l_log := [] |}
  = Ok {| l_status := 1; l_f2skip := 1; l_ds := down_profile; l_ds2 := None;
          l_summary := []; l_log := [ErrorReadingFile 1] |} ∧
  sample_scan 0 [Readable down_profile; Unreadable] = Raise UnboundLocalError.
Proof. split; reflexivity. Qed.

(** The sibling path: a current file that cannot be opened is skipped and the
    scan goes on to the next file. *)
Lemma current_read_failure_continues :
  ∃ r, sample_scan 0 [Unreadable; Readable down_profile] = Ok r ∧
       r_status r = 1%Z ∧
       r_log r = [ErrorReadingFile 0] ∧
       flags_in (r_files r) 1 "conductivity" = Some (Int32 [2; 9; 2]%Z).
Proof. eexists. split; [vm_compute; reflexivity|]. repeat split. Qed.

(** C9 (code defect): a profile below the pressure floor gets its flag
    channels, but the [continue] of line 324 leaves the loop body before the
    linkage of lines 537-556, so no ancillary attribute names them. *)
Theorem C9_channel_without_linkage :
  ∃ r, sample_scan 0 [Readable shallow_profile] = Ok r ∧
       flags_in (r_files r) 0 "conductivity" = Some (Int32 [2; 9; 2]%Z) ∧
       flags_in (r_files r) 0 "temperature" = Some (Int32 [2; 2; 2]%Z) ∧
       ancillary_in (r_files r) 0 "conductivity" = None ∧
       ancillary_in (r_files r) 0 "temperature" = None ∧
       ancillary_in (r_files r) 0 "salinity" = None ∧
       ancillary_in (r_files r) 0 "density" = None.
Proof. eexists. split; [vm_compute; reflexivity|]. repeat split. Qed.

(** The sibling path of lines 339-351 (a down profile with no file after it)
    commits the same flags and does link them. *)
Lemma last_down_profile_is_linked :
  ∃ r, sample_scan 0 [Readable down_profile] = Ok r ∧
       flags_in (r_files r) 0 "conductivity" = Some (Int32 [2; 9; 2]%Z) ∧
       ancillary_in (r_files r) 0 "conductivity"
       = Some (AttrStr "conductivity_hysteresis_test") ∧
       ancillary_in (r_files r) 0 "salinity"
       = Some (AttrStr "conductivity_hysteresis_test temperature_hysteresis_test").
Proof. eexists. split; [vm_compute; reflexivity|]. repeat split. Qed.

(** The same defect on the lookahead side (lines 393-399): both profiles get
    their channels and neither is linked. *)
Lemma shallow_lookahead_without_linkage :
  ∃ r, sample_scan 0 [Readable down_profile; Readable shallow_profile] = Ok r ∧
       flags_in (r_files r) 0 "conductivity" = Some (Int32 [2; 9; 2]%Z) ∧
       flags_in (r_files r) 1 "conductivity" = Some (Int32 [2; 9; 2]%Z) ∧
       ancillary_in (r_files r) 0 "conductivity" = None ∧
       ancillary_in (r_files r) 1 "conductivity" = None.
Proof. eexists. split; [vm_compute; reflexivity|]. repeat split. Qed.

(** * Further properties of the scan *)

(** ** Dictionaries and datasets *)

Lemma dict_get_set {V} (d : dict V) (k k' : string) (v : V) :
  dict_get (dict_set d k v) k'
  = if String.eqb k k' then Some v else dict_get d k'.
Proof.
  induction d as [|[k0 v0] r IH]; simpl.
  - by destruct (String.eqb k k').
  - destruct (String.eqb k0 k) eqn:E0; simpl.
    + apply String.eqb_eq in E0 as ->. by destruct (String.eqb k k').
    + rewrite IH. destruct (String.eqb k0 k') eqn:E1; [|done].
      apply String.eqb_eq in E1 as ->.
      by rewrite String.eqb_sym, E0.
Qed.

Lemma vals_add_da (d : Dataset) (flags : list Z) (attrs : dict attr)
    (tv qc name : string) :
  vals (add_da d flags attrs tv qc) name
  = if String.eqb qc name then Some (Int32 flags) else vals d name.
Proof.
  unfold vals, add_da, setitem, getitem. simpl. rewrite dict_get_set.
  by destruct (String.eqb qc name).
Qed.

Lemma vals_set_history (d : Dataset) (h name : string) :
  vals (set_history d h) name = vals d name.
Proof. done. Qed.

Lemma append_ancillary_values (da da' : DataArray) (qc : string) :
  append_ancillary_variables da qc = Ok da' → values da' = values da.
Proof.
  unfold append_ancillary_variables.
  destruct (dict_get (attrs da) "ancillary_variables") as [[]|];
    intros [= <-] || discriminate; done.
Qed.

Lemma vals_linked (d d' : Dataset) (v qc name : string) :
  linked d v qc d' → vals d' name = vals d name.
Proof.
  intros (da & da' & Hda & Happ & ->).
  unfold vals, setitem, getitem in *. simpl. rewrite dict_get_set.
  destruct (String.eqb v name) eqn:E; [|done].
  apply String.eqb_eq in E as ->. rewrite Hda. simpl.
  by rewrite (append_ancillary_values _ _ _ Happ).
Qed.

Lemma append_to_linked (d d' : Dataset) (v qc : string) :
  append_to d v qc = Ok d' → linked d v qc d'.
Proof.
  unfold append_to. destruct (getitem d v) as [da|] eqn:Hda; [|discriminate].
  intros H. inv_ok H as da' Hda'. injection H as <-. by exists da, da'.
Qed.

(** ** Composition of the writes *)

Lemma touched_mono (P P' : Prop) (d d' : Dataset) :
  (P → P') → touched P d d' → touched P' d d'.
Proof.
  intros HP. induction 1 as [|d' tv raw flags attrs _ IH Htv Hraw Hfl
                              |d' d'' v tv _ IH Htv Hl|d' h _ IH Hh].
  - constructor.
  - apply touched_commit with raw; [done..|].
    destruct Hfl as [->|[Hp Hc]]; [by left|right; auto].
  - by eapply touched_link.
  - by apply touched_history.
Qed.

Lemma touched_trans (P : Prop) (d d' d'' : Dataset) :
  touched P d d' → touched P d' d'' → touched P d d''.
Proof.
  intros H1. induction 1 as [|e tv raw flags attrs _ IH Htv Hraw Hfl
                             |e e' v tv _ IH Htv Hl|e h _ IH Hh].
  - done.
  - by apply touched_commit with raw.
  - by eapply touched_link.
  - by apply touched_history.
Qed.

(** ** The steps of the loop body *)

Lemma hysteresis_flag_classification (polygon_area : list (Q * Q) → result Q)
    (thr : thresholds) (df : list (Q * Q)) (c : QartodFlags) :
  hysteresis_flag polygon_area thr df = Ok c → is_classification c.
Proof.
  unfold hysteresis_flag, is_classification. intros H.
  inv_ok H as pr Hpr. inv_ok H as dr Hdr.
  destruct (Qltb (test_threshold thr) dr); [|injection H as <-; auto].
  inv_ok H as ring Hring. inv_ok H as a Ha. injection H as <-.
  unfold area_flag. repeat case_match; auto.
Qed.

Lemma not_degenerate (d : Dataset) (pc : ndarray) (diff : float) :
  apply_qartod_qc d "pressure" = Ok pc →
  nanrange (as_float pc) = Ok diff →
  below_floor diff = false →
  ¬ degenerate d.
Proof.
  intros Hpc Hdiff Hfloor (pc' & diff' & Hpc' & Hdiff' & Hfloor').
  rewrite Hpc in Hpc'. injection Hpc' as <-.
  rewrite Hdiff in Hdiff'. injection Hdiff' as <-. congruence.
Qed.

Lemma load_lookahead_spec (files : list file) (i : nat) (st st1 : locals) :
  load_lookahead files (i + 1) st = Ok st1 →
  l_ds st1 = l_ds st ∧ l_ds2 st1 = lookahead files i st.
Proof.
  unfold load_lookahead, lookahead.
  destruct (l_ds2 st) as [d2|] eqn:E.
  - intros [= <-]. by rewrite E.
  - destruct (open_dataset files (i + 1)) as [d2|[]]; try discriminate;
      by intros [= <-].
Qed.

Lemma lookahead_touched_same (files : list file) (i : nat) (st st' : locals) :
  l_ds2 st' = l_ds2 st → lookahead_touched files i st st'.
Proof.
  intros H. unfold lookahead_touched, lookahead. rewrite H.
  destruct (l_ds2 st) as [d2|]; [|done]. exists d2. split; [done|constructor].
Qed.

Lemma follows_refl (d : Dataset) : follows d d.
Proof. by intros P d0 H. Qed.

Lemma follows_trans (d d' d'' : Dataset) :
  follows d d' → follows d' d'' → follows d d''.
Proof. intros H1 H2 P d0 H. by apply H2, H1. Qed.

Lemma follows_linked (d d' : Dataset) (v tv : string) :
  tv ∈ test_varnames → linked d v (qc_name tv) d' → follows d d'.
Proof. intros Htv Hl P d0 H. by eapply touched_link. Qed.

Lemma lookahead_follows_refl (o : option Dataset) : lookahead_follows o o.
Proof. destruct o as [d|]; simpl; [|done]. exists d. split; [done|apply follows_refl]. Qed.

Lemma lookahead_follows_trans (o o' o'' : option Dataset) :
  lookahead_follows o o' → lookahead_follows o' o'' → lookahead_follows o o''.
Proof.
  destruct o as [d|]; simpl.
  - intros (d' & -> & H1) (d'' & -> & H2). exists d''. split; [done|].
    by eapply follows_trans.
  - by intros -> ->.
Qed.

Lemma try_append_to_ds2_spec (v tv : string) (st st' : locals) :
  tv ∈ test_varnames →
  try_append_to_ds2 v (qc_name tv) st = Ok st' →
  l_ds st' = l_ds st ∧ lookahead_follows (l_ds2 st) (l_ds2 st').
Proof.
  intros Htv. unfold try_append_to_ds2.
  destruct (l_ds2 st) as [d2|] eqn:E2.
  2: { intros [= <-]. by rewrite E2. }
  destruct (getitem d2 (qc_name tv)).
  2: { intros [= <-]. rewrite E2. split; [done|apply lookahead_follows_refl]. }
  destruct (append_to d2 v (qc_name tv)) as [d2'|e] eqn:Happ.
  - intros [= <-]. simpl. split; [done|]. exists d2'. split; [done|].
    eapply follows_linked; [done|]. by apply append_to_linked.
  - destruct e; try discriminate. intros [= <-]. rewrite E2.
    split; [done|apply lookahead_follows_refl].
Qed.

Lemma link_spec (v tv : string) (st st' : locals) :
  tv ∈ test_varnames →
  link v (qc_name tv) st = Ok st' →
  follows (l_ds st) (l_ds st') ∧ lookahead_follows (l_ds2 st) (l_ds2 st').
Proof.
  intros Htv H. unfold link in H. inv_ok H as d Hd.
  apply try_append_to_ds2_spec in H as [H1 H2]; [|done]. simpl in *.
  rewrite H1. split; [|done].
  eapply follows_linked; [done|]. by apply append_to_linked.
Qed.

Lemma link_ancillary_spec (tv : string) (st st' : locals) :
  tv ∈ test_varnames →
  link_ancillary tv (qc_name tv) st = Ok st' →
  follows (l_ds st) (l_ds st') ∧ lookahead_follows (l_ds2 st) (l_ds2 st').
Proof.
  intros Htv H. unfold link_ancillary in H.
  inv_ok H as st1 H1. inv_ok H as st2 H2.
  apply link_spec in H1 as [A1 B1]; [|done].
  apply link_spec in H2 as [A2 B2]; [|done].
  apply link_spec in H as [A3 B3]; [|done].
  split.
  - eapply follows_trans; [|done]. by eapply follows_trans.
  - eapply lookahead_follows_trans; [|done]. by eapply lookahead_follows_trans.
Qed.

Lemma vals_getitem (d : Dataset) (name : string) (da : DataArray) :
  getitem d name = Some da → vals d name = Some (values da).
Proof. unfold vals. by intros ->. Qed.

Lemma l_ds_count_flag (tv : string) (c : QartodFlags) (st : locals) :
  l_ds (count_flag tv c st) = l_ds st ∧ l_ds2 (count_flag tv c st) = l_ds2 st.
Proof. by destruct c. Qed.

Lemma commit_initial (P : Prop) (d : Dataset) (tv : string) (da : DataArray)
    (attrs : dict attr) :
  tv ∈ test_varnames →
  getitem d tv = Some da →
  touched P d (add_da d (initial_flags (values da)).2 attrs tv (qc_name tv)).
Proof.
  intros Htv Hda. apply touched_commit with (values da); [constructor|done| |by left].
  by apply vals_getitem.
Qed.

Lemma commit_classified (P : Prop) (d : Dataset) (tv : string) (da : DataArray)
    (attrs : dict attr) (c : QartodFlags) (flags : list Z) :
  tv ∈ test_varnames → P →
  getitem d tv = Some da →
  is_classification c →
  set_index (initial_flags (values da)).2 (initial_flags (values da)).1 (code c)
  = Ok flags →
  touched P d (add_da d flags attrs tv (qc_name tv)).
Proof.
  intros Htv HP Hda Hc Hset.
  apply touched_commit with (values da); [constructor|done| |].
  - by apply vals_getitem.
  - right. split; [done|]. by exists c.
Qed.

Lemma evaluate_pair_touched (polygon_area : list (Q * Q) → result Q)
    (interpolate : list float → list float) (tv : string) (attrs : dict attr)
    (thr : thresholds) (da da2 : DataArray) (pc pc2 : ndarray) (d2 : Dataset)
    (st st' : locals) (P1 P2 : Prop) :
  tv ∈ test_varnames → P1 → P2 →
  getitem (l_ds st) tv = Some da →
  getitem d2 tv = Some da2 →
  evaluate_pair polygon_area interpolate tv (qc_name tv) attrs thr
    (initial_flags (values da)).1 (initial_flags (values da)).2
    (initial_flags (values da2)).1 (initial_flags (values da2)).2
    pc pc2 d2 st = Ok st' →
  touched P1 (l_ds st) (l_ds st') ∧
  ∃ d2', l_ds2 st' = Some d2' ∧ touched P2 d2 d2'.
Proof.
  intros Htv HP1 HP2 Hda Hda2 H. unfold evaluate_pair in H.
  inv_ok H as data_copy Hdc. inv_ok H as data_copy2 Hdc2.
  destruct (has_data (as_float data_copy) && has_data (as_float data_copy2)).
  - inv_ok H as c Hc. apply hysteresis_flag_classification in Hc.
    inv_ok H as fv Hfv. inv_ok H as fv2 Hfv2. injection H as <-. simpl.
    destruct (l_ds_count_flag tv c st) as [-> _]. split.
    + by eapply commit_classified.
    + eexists. split; [done|]. by eapply commit_classified.
  - injection H as <-. simpl. split.
    + by apply commit_initial.
    + eexists. split; [done|]. by apply commit_initial.
Qed.

Lemma initialize_flags_getitem (d : Dataset) (tv : string) (da : DataArray)
    (idx : list nat) (flags : list Z) :
  getitem d tv = Some da →
  initialize_flags d tv = Ok (idx, flags) →
  idx = (initial_flags (values da)).1 ∧ flags = (initial_flags (values da)).2.
Proof.
  unfold initialize_flags. intros ->. intros H.
  assert (E : initial_flags (values da) = (idx, flags)) by congruence.
  by rewrite E.
Qed.

Lemma check_lookahead_touched (polygon_area : list (Q * Q) → result Q)
    (interpolate : list float → list float)
    (convert_epoch_ts : list Q → list Q) (tv : string) (attrs : dict attr)
    (thr : thresholds) (da da2 : DataArray) (pc : ndarray) (d2 : Dataset)
    (st st' : locals) (b : bool) (P1 : Prop) :
  tv ∈ test_varnames → P1 →
  getitem (l_ds st) tv = Some da →
  getitem d2 tv = Some da2 →
  l_ds2 st = Some d2 →
  check_lookahead polygon_area interpolate convert_epoch_ts tv (qc_name tv)
    attrs thr (initial_flags (values da)).1 (initial_flags (values da)).2
    pc d2 st = Ok (b, st') →
  touched P1 (l_ds st) (l_ds st') ∧
  ∃ d2', l_ds2 st' = Some d2' ∧ touched (¬ degenerate d2) d2 d2'.
Proof.
  intros Htv HP1 Hda Hda2 Hds2 H. unfold check_lookahead in H.
  inv_ok H as init2 Hinit2. destruct init2 as [data_idx2 flag_vals2].
  apply (initialize_flags_getitem _ _ _ _ _ Hda2) in Hinit2 as [-> ->].
  inv_ok H as pc2 Hpc2. inv_ok H as diff2 Hdiff2.
  destruct (below_floor diff2) eqn:Hfloor2.
  { injection H as <- <-. simpl. split.
    - by apply commit_initial.
    - eexists. split; [done|]. by apply commit_initial. }
  pose proof (not_degenerate _ _ _ Hpc2 Hdiff2 Hfloor2) as Hnd2.
  inv_ok H as fl2 Hfl2. destruct fl2 as [first2 last2].
  destruct (lookahead_direction first2 last2).
  { injection H as <- <-. simpl. split.
    - by apply commit_initial.
    - exists d2. split; [done|constructor]. }
  inv_ok H as t1 Ht1. destruct t1 as [? ds_last].
  inv_ok H as t2 Ht2. destruct t2 as [ds2_first ?].
  destruct (Qltb (ds2_first - ds_last) 300).
  - inv_ok H as st1 Hst1. injection H as <- <-.
    by eapply evaluate_pair_touched.
  - injection H as <- <-. simpl. split.
    + by apply commit_initial.
    + eexists. split; [done|]. by apply commit_initial.
Qed.

Lemma no_more_files_touched (tv : string) (attrs : dict attr) (da : DataArray)
    (st st' : locals) (P : Prop) :
  tv ∈ test_varnames →
  getitem (l_ds st) tv = Some da →
  no_more_files tv (qc_name tv) attrs (initial_flags (values da)).2 st = Ok st' →
  touched P (l_ds st) (l_ds st') ∧ l_ds2 st' = l_ds2 st.
Proof.
  intros Htv Hda H. unfold no_more_files in H.
  inv_ok H as d1 H1. inv_ok H as d2 H2. inv_ok H as d3 H3.
  injection H as <-. simpl. split; [|done].
  eapply touched_link; [|done|by apply append_to_linked].
  eapply touched_link; [|done|by apply append_to_linked].
  eapply touched_link; [|done|by apply append_to_linked].
  by apply commit_initial.
Qed.

Lemma pair_with_next_touched (polygon_area : list (Q * Q) → result Q)
    (interpolate : list float → list float)
    (convert_epoch_ts : list Q → list Q) (files : list file) (i : nat)
    (tv : string) (attrs : dict attr) (thr : thresholds) (da : DataArray)
    (pc : ndarray) (st st' : locals) (b : bool) (P1 : Prop) :
  tv ∈ test_varnames → P1 →
  getitem (l_ds st) tv = Some da →
  pair_with_next polygon_area interpolate convert_epoch_ts files i tv
    (qc_name tv) attrs thr (initial_flags (values da)).1
    (initial_flags (values da)).2 pc st = Ok (b, st') →
  touched P1 (l_ds st) (l_ds st') ∧ lookahead_touched files i st st'.
Proof.
  intros Htv HP1 Hda H. unfold pair_with_next in H.
  destruct (length files <=? i + 1)%nat.
  { inv_ok H as st1 Hst1. injection H as <- <-.
    apply (no_more_files_touched _ _ _ _ _ P1 Htv Hda) in Hst1 as [Ht H2].
    split; [done|]. by apply lookahead_touched_same. }
  inv_ok H as st1 Hst1. apply load_lookahead_spec in Hst1 as [Hds1 Hds2].
  destruct (l_ds2 st1) as [d2|] eqn:E2; [|discriminate].
  destruct (getitem d2 tv) as [da2|] eqn:Hda2.
  - rewrite <- Hds1 in Hda.
    apply (check_lookahead_touched _ _ _ _ _ _ _ _ _ _ _ _ _ P1 Htv HP1 Hda Hda2 E2)
      in H as [Ht (d2' & Hd2' & Ht2)].
    rewrite Hds1 in Ht. split; [done|].
    unfold lookahead_touched. rewrite Hd2'. by exists d2.
  - injection H as <- <-. simpl. rewrite Hds1. split.
    + by apply commit_initial.
    + unfold lookahead_touched. simpl. rewrite E2. exists d2.
      split; [done|constructor].
Qed.

Lemma test_variable_touched (polygon_area : list (Q * Q) → result Q)
    (interpolate : list float → list float)
    (convert_epoch_ts : list Q → list Q) (config_dict : dict thresholds)
    (files : list file) (i : nat) (tv : string) (st st' : locals) (b : bool) :
  tv ∈ test_varnames →
  test_variable polygon_area interpolate convert_epoch_ts config_dict files i
    tv st = Ok (b, st') →
  touched (¬ degenerate (l_ds st)) (l_ds st) (l_ds st') ∧
  lookahead_touched files i st st'.
Proof.
  intros Htv H. unfold test_variable in H.
  destruct (dict_get config_dict (tv +:+ "_hysteresis_test")) as [thr|];
    [|discriminate].
  destruct (getitem (l_ds st) tv) as [da|] eqn:Hda.
  2: { injection H as <- <-. simpl. split; [constructor|].
       by apply lookahead_touched_same. }
  inv_ok H as init Hinit. destruct init as [data_idx flag_vals].
  apply (initialize_flags_getitem _ _ _ _ _ Hda) in Hinit as [-> ->].
  destruct (length (initial_flags (values da)).1 =? 0)%nat.
  { injection H as <- <-. simpl. split; [constructor|].
    by apply lookahead_touched_same. }
  inv_ok H as pc Hpc. inv_ok H as diff Hdiff.
  destruct (below_floor diff) eqn:Hfloor.
  { injection H as <- <-. simpl. split; [by apply commit_initial|].
    by apply lookahead_touched_same. }
  pose proof (not_degenerate _ _ _ Hpc Hdiff Hfloor) as Hnd.
  inv_ok H as fl Hfl. destruct fl as [first last].
  destruct (current_direction first last).
  - by eapply pair_with_next_touched.
  - injection H as <- <-. simpl. split; [by apply commit_initial|].
    by apply lookahead_touched_same.
Qed.

Lemma lookahead_touched_follows (files : list file) (i : nat)
    (st st1 st' : locals) :
  lookahead_touched files i st st1 →
  lookahead_follows (l_ds2 st1) (l_ds2 st') →
  lookahead_touched files i st st'.
Proof.
  unfold lookahead_touched, lookahead_follows.
  destruct (l_ds2 st1) as [d1|].
  - intros (d2 & Hd2 & Ht) (d2' & -> & Hf). exists d2. split; [done|].
    by apply Hf.
  - by intros H ->.
Qed.

(** One pass of the loop body over a tested variable writes to the current
    profile and to the lookahead by commits and links only, and classifies
    neither when its pressure is degenerate. *)
Lemma loop_body_touched (polygon_area : list (Q * Q) → result Q)
    (interpolate : list float → list float)
    (convert_epoch_ts : list Q → list Q) (config_dict : dict thresholds)
    (files : list file) (i : nat) (tv : string) (st st' : locals) :
  tv ∈ test_varnames →
  loop_body polygon_area interpolate convert_epoch_ts config_dict files i st tv
  = Ok st' →
  touched (¬ degenerate (l_ds st)) (l_ds st) (l_ds st') ∧
  lookahead_touched files i st st'.
Proof.
  intros Htv H. unfold loop_body in H.
  inv_ok H as r Hr. destruct r as [b st1].
  apply test_variable_touched in Hr as [Ht Hl]; [|done].
  destruct b; [|by injection H as <-].
  apply link_ancillary_spec in H as [Hf Hlf]; [|done]. split.
  - by apply Hf.
  - by eapply lookahead_touched_follows.
Qed.

(** ** The loop over the files *)

Lemma open_dataset_Ok (files : list file) (p : nat) (d : Dataset) :
  open_dataset files p = Ok d ↔ files !! p = Some (Readable d).
Proof.
  unfold open_dataset. destruct (files !! p) as [[d'|]|]; split;
    intros H; try discriminate; by simplify_eq.
Qed.

Lemma file_touched_refl (f : file) : file_touched f f.
Proof. destruct f; simpl; [constructor|done]. Qed.

Lemma file_touched_trans (f f' f'' : file) :
  file_touched f f' → file_touched f' f'' → file_touched f f''.
Proof.
  destruct f, f', f''; simpl; try done. apply touched_trans.
Qed.

Lemma files_touched_refl (files : list file) : Forall2 file_touched files files.
Proof. induction files; constructor; [apply file_touched_refl|done]. Qed.

Lemma files_touched_trans (fs fs' fs'' : list file) :
  Forall2 file_touched fs fs' → Forall2 file_touched fs' fs'' →
  Forall2 file_touched fs fs''.
Proof.
  intros H. revert fs''. induction H as [|f f' r r' Hf _ IH]; intros fs'' H2.
  - by inversion H2.
  - inversion H2; subst. constructor; [by eapply file_touched_trans|by apply IH].
Qed.

Lemma files_touched_insert (files : list file) (p : nat) (d d' : Dataset) :
  files !! p = Some (Readable d) →
  touched True d d' →
  Forall2 file_touched files (<[p := Readable d']> files).
Proof.
  intros Hp Ht. rewrite <- (list_insert_id files p (Readable d)) at 1 by done.
  apply Forall2_insert; [apply files_touched_refl|done].
Qed.

Lemma for_each_invariant {A S : Type} (body : S → A → result S) (Inv : S → Prop)
    (l : list A) (s s' : S) :
  (∀ s x s', x ∈ l → Inv s → body s x = Ok s' → Inv s') →
  Inv s → for_each body l s = Ok s' → Inv s'.
Proof.
  revert s. induction l as [|x l IH]; intros s Hbody Hs H; simpl in H.
  - by injection H as <-.
  - inv_ok H as s1 Hs1. apply (IH s1); [| |done].
    + intros s2 y s2' Hy. apply Hbody. by right.
    + eapply Hbody; [|done..]. by left.
Qed.

Lemma update_history_touched (now script : string) (d d' : Dataset) (P : Prop) :
  touched P d d' → touched P d (update_history now script d').
Proof.
  intros H. unfold update_history. destruct (history d') as [h|] eqn:E;
    apply touched_history; try done; rewrite E; simpl; [|done].
  by eexists.
Qed.

(** The tested variables of one file: the current profile and the lookahead
    are written by commits and links only. *)
Lemma test_varnames_touched (polygon_area : list (Q * Q) → result Q)
    (interpolate : list float → list float)
    (convert_epoch_ts : list Q → list Q) (config_dict : dict thresholds)
    (files : list file) (i : nat) (st st' : locals) :
  l_ds2 st = None →
  for_each (loop_body polygon_area interpolate convert_epoch_ts config_dict files i)
    test_varnames st = Ok st' →
  touched True (l_ds st) (l_ds st') ∧
  match l_ds2 st' with
  | None => True
  | Some d2' => ∃ d2, files !! (i + 1)%nat = Some (Readable d2) ∧ touched True d2 d2'
  end.
Proof.
  intros Hno H.
  pose (Inv := λ s : locals,
    touched True (l_ds st) (l_ds s) ∧
    match l_ds2 s with
    | None => True
    | Some d2' => ∃ d2, files !! (i + 1)%nat = Some (Readable d2) ∧ touched True d2 d2'
    end).
  apply (for_each_invariant _ Inv _ _ _) in H; [done| |].
  - intros s tv s' Htv [Hs1 Hs2] Hbody.
    apply loop_body_touched in Hbody as [Ht Hl]; [|done]. split.
    + eapply touched_trans; [done|]. by eapply touched_mono.
    + unfold lookahead_touched, lookahead in Hl.
      destruct (l_ds2 s') as [d2'|]; [|done].
      destruct Hl as (d2 & Hd2 & Ht2).
      apply (touched_mono _ True) in Ht2; [|done].
      destruct (l_ds2 s) as [d1|].
      * injection Hd2 as ->. destruct Hs2 as (d0 & Hd0 & Ht0).
        exists d0. split; [done|]. by eapply touched_trans.
      * destruct (open_dataset files (i + 1)) as [d1|] eqn:Hopen; [|done].
        injection Hd2 as ->. apply open_dataset_Ok in Hopen. by exists d2.
  - split; [constructor|]. by rewrite Hno.
Qed.

Lemma file_step_touched (polygon_area : list (Q * Q) → result Q)
    (interpolate : list float → list float)
    (convert_epoch_ts : list Q → list Q) (now script : string)
    (config_dict : dict thresholds) (r r' : run) (k : nat) :
  r_ds2 r = None →
  file_step polygon_area interpolate convert_epoch_ts now script config_dict r k
  = Ok r' →
  r_ds2 r' = None ∧ Forall2 file_touched (r_files r) (r_files r').
Proof.
  intros Hno H. unfold file_step in H.
  destruct (length (r_files r) <=? k + next_skip r)%nat.
  { injection H as <-. simpl. split; [done|apply files_touched_refl]. }
  destruct (open_dataset (r_files r) (k + next_skip r)) as [d|e] eqn:Hopen.
  2: { destruct e; try discriminate; injection H as <-; simpl;
         (split; [done|apply files_touched_refl]). }
  inv_ok H as st Hst. injection H as <-. simpl. split; [done|].
  apply test_varnames_touched in Hst as [Ht Hl]; [|done]. simpl in Ht.
  apply open_dataset_Ok in Hopen.
  pose proof (files_touched_insert _ _ _ _ Hopen
                (update_history_touched now script _ _ _ Ht)) as H1.
  destruct (l_ds2 st) as [d2'|]; [|done].
  destruct Hl as (d2 & Hd2 & Ht2).
  eapply files_touched_trans; [exact H1|].
  apply files_touched_insert with d2.
  - rewrite list_lookup_insert_ne by lia. done.
  - by apply update_history_touched.
Qed.

(** Every file of the queue after the scan comes from the same file before
    it by the writes of the scan. *)
Lemma scan_touched (polygon_area : list (Q * Q) → result Q)
    (interpolate : list float → list float)
    (convert_epoch_ts : list Q → list Q) (now script : string)
    (config_dict : dict thresholds) (files : list file) (r : run) :
  scan polygon_area interpolate convert_epoch_ts now script config_dict files
  = Ok r →
  Forall2 file_touched files (r_files r).
Proof.
  unfold scan. destruct (length files =? 0)%nat.
  { intros [= <-]. apply files_touched_refl. }
  intros H.
  pose (Inv := λ s : run, r_ds2 s = None ∧ Forall2 file_touched files (r_files s)).
  apply (for_each_invariant _ Inv _ _ _) in H; [by destruct H| |].
  - intros s k s' _ [Hs1 Hs2] Hstep.
    apply file_step_touched in Hstep as [H1 H2]; [|done].
    split; [done|]. by eapply files_touched_trans.
  - split; [done|apply files_touched_refl].
Qed.

(** ** What the writes of the scan leave in a file *)

Lemma test_varnames_cases (tv : string) :
  tv ∈ test_varnames → tv = "conductivity" ∨ tv = "temperature".
Proof.
  unfold test_varnames. rewrite !elem_of_cons, elem_of_nil. tauto.
Qed.

Lemma qc_name_inj (tv tv' : string) :
  tv ∈ test_varnames → tv' ∈ test_varnames → qc_name tv = qc_name tv' → tv = tv'.
Proof.
  intros [-> | ->]%test_varnames_cases [-> | ->]%test_varnames_cases;
    by intros [=].
Qed.

(** The scan never rewrites the samples of a tested variable. *)
Lemma touched_raw (P : Prop) (d d' : Dataset) (tv : string) :
  touched P d d' → tv ∈ test_varnames → vals d' tv = vals d tv.
Proof.
  intros H Htv. induction H as [|d' tv0 raw flags attrs _ IH Htv0 Hraw Hfl
                                |d' d'' v tv0 _ IH Htv0 Hl|d' h _ IH Hh].
  - done.
  - rewrite vals_add_da, <- IH.
    by destruct (test_varnames_cases _ Htv) as [-> | ->];
       destruct (test_varnames_cases _ Htv0) as [-> | ->].
  - by rewrite (vals_linked _ _ _ _ _ Hl).
  - done.
Qed.

(** A channel of a touched file is the one it had, or it is the flag channel
    of a tested variable, committed for the raw samples of that variable. *)
Lemma touched_vals (P : Prop) (d d' : Dataset) (name : string) :
  touched P d d' →
  vals d' name = vals d name ∨
  ∃ tv raw flags,
    tv ∈ test_varnames ∧ name = qc_name tv ∧ vals d tv = Some raw ∧
    vals d' name = Some (Int32 flags) ∧ engine_flags P raw flags.
Proof.
  induction 1 as [|d' tv0 raw flags attrs Ht IH Htv0 Hraw Hfl
                  |d' d'' v tv0 _ IH Htv0 Hl|d' h _ IH Hh].
  - by left.
  - rewrite vals_add_da. destruct (String.eqb (qc_name tv0) name) eqn:E; [|done].
    apply String.eqb_eq in E as <-. right. exists tv0, raw, flags.
    rewrite <- (touched_raw _ _ _ _ Ht Htv0). done.
  - by rewrite (vals_linked _ _ _ _ _ Hl).
  - done.
Qed.

Lemma engine_flags_length (P : Prop) (raw : ndarray) (flags : list Z) :
  engine_flags P raw flags → length flags = length (as_float raw).
Proof.
  intros [->|(_ & c & _ & Hset)]; [apply initial_flags_length|].
  apply set_index_inv in Hset as [-> _]. apply initial_flags_length.
Qed.

(** A committed flag array holds MISSING at every NaN sample. *)
Lemma engine_flags_missing (P : Prop) (raw : ndarray) (flags : list Z) (j : nat) :
  engine_flags P raw flags →
  as_float raw !! j = Some None →
  flags !! j = Some (code MISSING).
Proof.
  intros Hfl Hj. pose proof (initial_flags_lookup _ _ _ Hj) as Hinit.
  destruct Hfl as [->|(_ & c & _ & Hset)]; [done|].
  apply set_index_inv in Hset as [_ Hlook]. rewrite Hlook.
  - destruct (decide (j ∈ (initial_flags raw).1)) as [Hin|]; [|done].
    apply initial_flags_idx in Hin as [q Hq]. congruence.
  - rewrite initial_flags_length. by eapply lookup_lt_Some.
Qed.

(** A committed flag array holds the classification at every defined
    sample. *)
Lemma set_index_classified (raw : ndarray) (flags : list Z) (c : Z) (j : nat)
    (q : Q) :
  set_index (initial_flags raw).2 (initial_flags raw).1 c = Ok flags →
  as_float raw !! j = Some (Some q) →
  flags !! j = Some c.
Proof.
  intros Hset Hj. apply set_index_inv in Hset as [_ Hlook]. rewrite Hlook.
  - destruct (decide (j ∈ (initial_flags raw).1)) as [|Hnin]; [done|].
    exfalso. apply Hnin, initial_flags_idx. by exists q.
  - rewrite initial_flags_length. by eapply lookup_lt_Some.
Qed.

Lemma Forall_foldr_insert {A} (Q : A → Prop) (a : list A) (idx : list nat) (v : A) :
  Forall Q a → Q v → Forall Q (foldr (λ i acc, <[i:=v]> acc) a idx).
Proof.
  intros Ha Hv. induction idx as [|i idx IH]; simpl; [done|].
  by apply Forall_insert.
Qed.

(** A committed flag array holds the five codes only. *)
Lemma engine_flags_codes (P : Prop) (raw : ndarray) (flags : list Z) :
  engine_flags P raw flags → Forall (λ z, z ∈ flag_values) flags.
Proof.
  assert (Hinit : Forall (λ z, z ∈ flag_values) (initial_flags raw).2).
  { unfold initial_flags. simpl. apply Forall_fmap, Forall_forall.
    intros b _. simpl. unfold flag_values. destruct b; repeat constructor. }
  intros [->|(_ & c & Hc & Hset)]; [done|].
  unfold set_index in Hset. destruct (forallb _ _); [|discriminate].
  injection Hset as <-. apply Forall_foldr_insert; [done|].
  unfold flag_values. destruct Hc as [->|[->| ->]]; simpl; repeat constructor.
Qed.

(** Without a classification, a touched file holds initial flags only. *)
Lemma touched_not_evaluated (P : Prop) (d d' : Dataset) (tv : string) :
  touched P d d' → ¬ P → tv ∈ test_varnames → not_evaluated_only tv d d'.
Proof.
  intros Ht HP Htv. split; [by eapply touched_raw|].
  destruct (touched_vals _ _ _ (qc_name tv) Ht)
    as [Heq|(tv' & raw & flags & Htv' & Hname & Hraw & Hch & Hfl)]; [by left|].
  right. apply qc_name_inj in Hname as <-; [|done..].
  exists raw. split; [done|]. rewrite Hch.
  destruct Hfl as [->|[HP' _]]; [done|]. by destruct HP.
Qed.

(** ** Masking by earlier tests *)

(** [a] is [a0] with some samples replaced by NaN. *)
Lemma set_nan_masks (a0 a : ndarray) (idx : list nat) (j : nat) (q : Q) :
  set_nan a0 idx = Ok a →
  as_float a !! j = Some (Some q) → as_float a0 !! j = Some (Some q).
Proof.
  destruct a0 as [v|v]; simpl.
  - intros H. inv_ok H as v' Hv'. injection H as <-. simpl.
    apply set_index_inv in Hv' as [Hlen Hlook]. intros Hj.
    assert (Hlt : (j < length v)%nat).
    { rewrite <- Hlen. by eapply lookup_lt_Some. }
    specialize (Hlook j Hlt). unfold float in *. rewrite Hlook in Hj.
    by destruct (decide (j ∈ idx)).
  - destruct (forallb _ idx); [|discriminate].
    destruct idx; [|discriminate]. by intros [= <-].
Qed.

Lemma apply_qartod_qc_masks (d : Dataset) (v : string) (da : DataArray)
    (a : ndarray) (j : nat) (q : Q) :
  getitem d v = Some da →
  apply_qartod_qc d v = Ok a →
  as_float a !! j = Some (Some q) →
  as_float (values da) !! j = Some (Some q).
Proof.
  intros Hda. unfold apply_qartod_qc. rewrite Hda.
  generalize (filter (λ x, str_in (v +:+ "_qartod") x = true)
                (dict_keys (data_vars d))).
  intros l. generalize (values da). clear Hda.
  induction l as [|qv l IH]; intros a0; simpl.
  - by intros [= <-].
  - destruct (getitem d qv) as [qda|]; simpl.
    + destruct (set_nan a0 _) as [a1|e] eqn:Hset.
      * intros H Hj. eapply set_nan_masks; [done|]. by eapply IH.
      * intros H. exfalso. clear -H. induction l as [|x l IH]; [done|]. by apply IH.
    + intros H. exfalso. clear -H. induction l as [|x l IH]; [done|]. by apply IH.
Qed.

(** ** The claims on the flag channels *)

(** X1: when the two masked channels of a pair both have data and the pair
    is classified as [c], the pair evaluation succeeds, [c] is GOOD, SUSPECT
    or FAIL, and the flag channels committed to the two profiles hold the
    code of [c] at every sample that survives the masking, on both
    profiles alike. *)
Theorem pair_flag_uniform (polygon_area : list (Q * Q) → result Q)
    (interpolate : list float → list float) (tv : string) (attrs : dict attr)
    (thr : thresholds) (data_idx data_idx2 : list nat)
    (flag_vals flag_vals2 : list Z) (pc pc2 data_copy data_copy2 : ndarray)
    (d2 : Dataset) (st : locals) (c : QartodFlags) :
  initialize_flags (l_ds st) tv = Ok (data_idx, flag_vals) →
  initialize_flags d2 tv = Ok (data_idx2, flag_vals2) →
  apply_qartod_qc (l_ds st) tv = Ok data_copy →
  apply_qartod_qc d2 tv = Ok data_copy2 →
  has_data (as_float data_copy) = true →
  has_data (as_float data_copy2) = true →
  hysteresis_flag polygon_area thr
    (pair_points interpolate (as_float data_copy) (as_float pc)
       (as_float data_copy2) (as_float pc2)) = Ok c →
  ∃ st' d2' flags flags2,
    evaluate_pair polygon_area interpolate tv (qc_name tv) attrs thr
      data_idx flag_vals data_idx2 flag_vals2 pc pc2 d2 st = Ok st' ∧
    is_classification c ∧
    l_ds2 st' = Some d2' ∧
    vals (l_ds st') (qc_name tv) = Some (Int32 flags) ∧
    vals d2' (qc_name tv) = Some (Int32 flags2) ∧
    (∀ j q, as_float data_copy !! j = Some (Some q) →
            flags !! j = Some (code c)) ∧
    (∀ j q, as_float data_copy2 !! j = Some (Some q) →
            flags2 !! j = Some (code c)).
Proof.
  intros Hinit Hinit2 Hdc Hdc2 Hhas Hhas2 Hc.
  unfold initialize_flags in Hinit, Hinit2.
  destruct (getitem (l_ds st) tv) as [da|] eqn:Hda; [|discriminate].
  destruct (getitem d2 tv) as [da2|] eqn:Hda2; [|discriminate].
  assert (E : initial_flags (values da) = (data_idx, flag_vals)) by congruence.
  assert (E2 : initial_flags (values da2) = (data_idx2, flag_vals2)) by congruence.
  clear Hinit Hinit2.
  pose proof (initial_flags_idx_lt (values da)) as Hlt.
  pose proof (initial_flags_idx_lt (values da2)) as Hlt2.
  rewrite E in Hlt. rewrite E2 in Hlt2. simpl in Hlt, Hlt2.
  pose proof (set_index_Ok _ _ (code c) Hlt) as Hset.
  pose proof (set_index_Ok _ _ (code c) Hlt2) as Hset2.
  unfold evaluate_pair. rewrite Hdc, Hdc2. simpl.
  rewrite Hhas, Hhas2. simpl. rewrite Hc. simpl.
  rewrite Hset, Hset2. simpl.
  eexists _, _, _, _. split; [reflexivity|].
  cbn [l_ds l_ds2 incr_f2skip set_ds set_ds2].
  split; [by eapply hysteresis_flag_classification|].
  split; [reflexivity|].
  split; [rewrite vals_add_da; by rewrite String.eqb_refl|].
  split; [rewrite vals_add_da; by rewrite String.eqb_refl|].
  split.
  - intros j q Hj. apply (apply_qartod_qc_masks _ _ _ _ _ _ Hda Hdc) in Hj.
    eapply set_index_classified; [|done]. by rewrite E.
  - intros j q Hj. apply (apply_qartod_qc_masks _ _ _ _ _ _ Hda2 Hdc2) in Hj.
    eapply set_index_classified; [|done]. by rewrite E2.
Qed.

(** ** Degenerate pressure *)

Lemma bind_Ok_l {A B} (a : A) (f : A → result B) : Ok a ≫= f = f a.
Proof. reflexivity. Qed.

Lemma bind_Raise_l {A B} (e : exn) (f : A → result B) : Raise e ≫= f = Raise e.
Proof. reflexivity. Qed.

Lemma check_lookahead_no_geometry (pa pa' : list (Q * Q) → result Q)
    (interpolate : list float → list float)
    (convert_epoch_ts : list Q → list Q) (tv qc : string) (attrs : dict attr)
    (thr : thresholds) (data_idx : list nat) (flag_vals : list Z)
    (pc : ndarray) (d2 : Dataset) (st : locals) :
  degenerate d2 →
  check_lookahead pa interpolate convert_epoch_ts tv qc attrs thr data_idx
    flag_vals pc d2 st
  = check_lookahead pa' interpolate convert_epoch_ts tv qc attrs thr data_idx
      flag_vals pc d2 st.
Proof.
  intros (pc2 & diff2 & Hpc2 & Hdiff2 & Hfloor2). unfold check_lookahead.
  destruct (initialize_flags d2 tv) as [[idx2 fl2]|];
    cbn [mbind result_bind]; [|reflexivity].
  rewrite Hpc2. cbn [mbind result_bind]. rewrite Hdiff2. cbn [mbind result_bind].
  by rewrite Hfloor2.
Qed.

Lemma pair_with_next_no_geometry (pa pa' : list (Q * Q) → result Q)
    (interpolate : list float → list float)
    (convert_epoch_ts : list Q → list Q) (files : list file) (i : nat)
    (tv qc : string) (attrs : dict attr) (thr : thresholds)
    (data_idx : list nat) (flag_vals : list Z) (pc : ndarray) (d2 : Dataset)
    (st : locals) :
  lookahead files i st = Some d2 →
  degenerate d2 →
  pair_with_next pa interpolate convert_epoch_ts files i tv qc attrs thr
    data_idx flag_vals pc st
  = pair_with_next pa' interpolate convert_epoch_ts files i tv qc attrs thr
      data_idx flag_vals pc st.
Proof.
  intros Hla Hdeg. unfold pair_with_next.
  destruct (length files <=? i + 1)%nat; [done|].
  destruct (load_lookahead files (i + 1) st) as [st1|] eqn:E;
    cbn [mbind result_bind]; [|reflexivity].
  apply load_lookahead_spec in E as [_ E2].
  destruct (l_ds2 st1) as [d2'|]; [|done].
  destruct (getitem d2' tv); [|done].
  apply check_lookahead_no_geometry. congruence.
Qed.

Lemma test_variable_no_geometry (pa pa' : list (Q * Q) → result Q)
    (interpolate : list float → list float)
    (convert_epoch_ts : list Q → list Q) (config_dict : dict thresholds)
    (files : list file) (i : nat) (tv : string) (st : locals) :
  degenerate (l_ds st) ∨
  (∃ d2, lookahead files i st = Some d2 ∧ degenerate d2) →
  test_variable pa interpolate convert_epoch_ts config_dict files i tv st
  = test_variable pa' interpolate convert_epoch_ts config_dict files i tv st.
Proof.
  intros Hdeg. unfold test_variable.
  destruct (dict_get config_dict _) as [thr|]; [|done].
  destruct (getitem (l_ds st) tv); [|done].
  destruct (initialize_flags (l_ds st) tv) as [[data_idx flag_vals]|];
    cbn [mbind result_bind]; [|reflexivity].
  destruct (length data_idx =? 0)%nat; [done|].
  destruct (apply_qartod_qc (l_ds st) "pressure") as [pc|] eqn:Hpc;
    cbn [mbind result_bind]; [|reflexivity].
  destruct (nanrange (as_float pc)) as [diff|] eqn:Hdiff;
    cbn [mbind result_bind]; [|reflexivity].
  destruct (below_floor diff) eqn:Hfloor; [done|].
  destruct (first_last (valid (as_float pc))) as [[first last]|];
    cbn [mbind result_bind]; [|reflexivity].
  destruct (current_direction first last); [|done].
  destruct Hdeg as [Hcur|(d2 & Hla & Hd2)].
  - by destruct (not_degenerate _ _ _ Hpc Hdiff Hfloor).
  - by eapply pair_with_next_no_geometry.
Qed.

(** With a degenerate current profile or a degenerate lookahead the loop body
    does not depend on the geometry. *)
Lemma loop_body_no_geometry (pa pa' : list (Q * Q) → result Q)
    (interpolate : list float → list float)
    (convert_epoch_ts : list Q → list Q) (config_dict : dict thresholds)
    (files : list file) (i : nat) (tv : string) (st : locals) :
  degenerate (l_ds st) ∨
  (∃ d2, lookahead files i st = Some d2 ∧ degenerate d2) →
  loop_body pa interpolate convert_epoch_ts config_dict files i st tv
  = loop_body pa' interpolate convert_epoch_ts config_dict files i st tv.
Proof.
  intros Hdeg. unfold loop_body.
  by rewrite (test_variable_no_geometry pa pa').
Qed.

(** A degenerate current profile always gets through the loop body. *)
Lemma loop_body_degenerate_returns (pa : list (Q * Q) → result Q)
    (interpolate : list float → list float)
    (convert_epoch_ts : list Q → list Q) (config_dict : dict thresholds)
    (files : list file) (i : nat) (tv : string) (st : locals) (thr : thresholds) :
  degenerate (l_ds st) →
  dict_get config_dict (qc_name tv) = Some thr →
  ∃ st', loop_body pa interpolate convert_epoch_ts config_dict files i st tv
         = Ok st'.
Proof.
  intros (pc & diff & Hpc & Hdiff & Hfloor) Hcfg.
  unfold loop_body, test_variable. unfold qc_name in Hcfg. rewrite Hcfg.
  unfold initialize_flags.
  destruct (getitem (l_ds st) tv) as [da|]; cbn [mbind result_bind];
    [|by eexists].
  destruct (initial_flags (values da)) as [data_idx flag_vals].
  destruct (length data_idx =? 0)%nat; cbn [mbind result_bind]; [by eexists|].
  rewrite Hpc. cbn [mbind result_bind]. rewrite Hdiff. cbn [mbind result_bind].
  rewrite Hfloor. cbn [mbind result_bind]. by eexists.
Qed.

(** X2: a profile whose masked pressure is all NaN or spans less than 5 units
    is never classified, whatever the samples of the tested variable. As the
    current profile it always gets through the loop body, the same for every
    geometry, and its flag channel is left as it was or holds the initial
    flags (2, or 9 at NaN samples). As the lookahead of the step, the same
    holds of its flag channel whenever the step returns, again for every
    geometry. *)
Theorem degenerate_not_evaluated (interpolate : list float → list float)
    (convert_epoch_ts : list Q → list Q) (config_dict : dict thresholds)
    (files : list file) (i : nat) (tv : string) (st : locals) :
  tv ∈ test_varnames →
  (degenerate (l_ds st) →
   is_Some (dict_get config_dict (qc_name tv)) →
   ∃ st',
     (∀ polygon_area,
        loop_body polygon_area interpolate convert_epoch_ts config_dict
          files i st tv = Ok st') ∧
     not_evaluated_only tv (l_ds st) (l_ds st')) ∧
  (∀ polygon_area st' d2 d2',
     loop_body polygon_area interpolate convert_epoch_ts config_dict
       files i st tv = Ok st' →
     lookahead files i st = Some d2 →
     degenerate d2 →
     l_ds2 st' = Some d2' →
     (∀ polygon_area',
        loop_body polygon_area' interpolate convert_epoch_ts config_dict
          files i st tv = Ok st') ∧
     not_evaluated_only tv d2 d2').
Proof.
  intros Htv. split.
  - intros Hdeg [thr Hcfg].
    destruct (loop_body_degenerate_returns (λ _, Raise ValueError) interpolate
                convert_epoch_ts config_dict files i tv st thr Hdeg Hcfg)
      as (st' & Hst').
    exists st'. split.
    + intros pa. rewrite <- Hst'. apply loop_body_no_geometry. by left.
    + apply loop_body_touched in Hst' as [Ht _]; [|done].
      eapply touched_not_evaluated; [exact Ht| |done]. intros Hn. by apply Hn.
  - intros pa st' d2 d2' Hst' Hla Hdeg Hd2'. split.
    + intros pa'. rewrite <- Hst'. apply loop_body_no_geometry.
      right. by exists d2.
    + apply loop_body_touched in Hst' as [_ Hl]; [|done].
      unfold lookahead_touched in Hl. rewrite Hd2' in Hl.
      destruct Hl as (d2'' & Hla' & Ht). rewrite Hla in Hla'.
      injection Hla' as <-.
      eapply touched_not_evaluated; [exact Ht| |done]. intros Hn. by apply Hn.
Qed.

(** ** The files after a scan *)

Lemma scan_file_touched (polygon_area : list (Q * Q) → result Q)
    (interpolate : list float → list float)
    (convert_epoch_ts : list Q → list Q) (now script : string)
    (config_dict : dict thresholds) (files : list file) (r : run) (p : nat)
    (d d' : Dataset) :
  scan polygon_area interpolate convert_epoch_ts now script config_dict files
  = Ok r →
  files !! p = Some (Readable d) →
  r_files r !! p = Some (Readable d') →
  touched True d d'.
Proof.
  intros Hscan Hp Hp'. apply scan_touched in Hscan.
  exact (Forall2_lookup_lr _ _ _ _ _ _ Hscan Hp Hp').
Qed.

(** X3: after a scan, the raw samples of a tested variable of a file are the
    ones read, and its flag channel is the one the file had or a committed
    array of the same length that holds MISSING (9) at every sample whose raw
    value is NaN: no classification overwrites a MISSING flag. *)
Theorem scan_keeps_missing (polygon_area : list (Q * Q) → result Q)
    (interpolate : list float → list float)
    (convert_epoch_ts : list Q → list Q) (now script : string)
    (config_dict : dict thresholds) (files : list file) (r : run) (p : nat)
    (d d' : Dataset) (tv : string) (raw : ndarray) (j : nat) :
  scan polygon_area interpolate convert_epoch_ts now script config_dict files
  = Ok r →
  files !! p = Some (Readable d) →
  r_files r !! p = Some (Readable d') →
  tv ∈ test_varnames →
  vals d tv = Some raw →
  as_float raw !! j = Some None →
  vals d' tv = Some raw ∧
  (vals d' (qc_name tv) = vals d (qc_name tv) ∨
   ∃ flags, vals d' (qc_name tv) = Some (Int32 flags) ∧
            length flags = length (as_float raw) ∧
            flags !! j = Some (code MISSING)).
Proof.
  intros Hscan Hp Hp' Htv Hraw Hj.
  pose proof (scan_file_touched _ _ _ _ _ _ _ _ _ _ _ Hscan Hp Hp') as Ht.
  split; [by rewrite (touched_raw _ _ _ _ Ht Htv)|].
  destruct (touched_vals _ _ _ (qc_name tv) Ht)
    as [Heq|(tv' & raw' & flags & Htv' & Hname & Hraw' & Hch & Hfl)]; [by left|].
  right. apply qc_name_inj in Hname as <-; [|done..].
  assert (raw' = raw) as -> by congruence.
  exists flags. split; [done|]. split.
  - by eapply engine_flags_length.
  - by eapply engine_flags_missing.
Qed.

Lemma scan_keeps_missing_witness :
  ∃ r d',
    sample_scan 8 [Readable down_profile; Readable up_profile] = Ok r ∧
    r_files r !! 0%nat = Some (Readable d') ∧
    vals d' "conductivity" = Some (Float64 [Some 1%Q; None; Some 3%Q]) ∧
    (vals d' (qc_name "conductivity") = vals down_profile (qc_name "conductivity") ∨
     ∃ flags, vals d' (qc_name "conductivity") = Some (Int32 flags) ∧
              length flags = 3%nat ∧
              flags !! 1%nat = Some 9%Z).
Proof.
  eexists _, _. split; [vm_compute; reflexivity|]. split; [reflexivity|].
  eapply (scan_keeps_missing (λ _, Ok 8%Q) id id "2024-12-20T00:00:00Z"
            "ctd_hysteresis_test.py" sample_config
            [Readable down_profile; Readable up_profile] _ 0 down_profile _
            "conductivity" (Float64 [Some 1%Q; None; Some 3%Q]) 1).
  - vm_compute. reflexivity.
  - reflexivity.
  - reflexivity.
  - unfold test_varnames. by left.
  - reflexivity.
  - reflexivity.
Defined.

Lemma qc_name_not_qartod (tv : string) :
  tv ∈ test_varnames → is_qartod_var (qc_name tv) = false.
Proof. by intros [-> | ->]%test_varnames_cases. Qed.

(** X4: a scan writes flag channels of tested variables only. Every channel
    of a file whose samples differ from those the file had is named
    ["<v>_hysteresis_test"] for a tested variable [v], is an integer array of
    the codes 1, 2, 3, 4, 9, and its name fails the discovery filter of the
    summary step (it has no ["_qartod_"]), so the summary step folds it for
    no sensor. *)
Theorem scan_writes_flag_channels_only (polygon_area : list (Q * Q) → result Q)
    (interpolate : list float → list float)
    (convert_epoch_ts : list Q → list Q) (now script : string)
    (config_dict : dict thresholds) (files : list file) (r : run) (p : nat)
    (d d' : Dataset) (name : string) :
  scan polygon_area interpolate convert_epoch_ts now script config_dict files
  = Ok r →
  files !! p = Some (Readable d) →
  r_files r !! p = Some (Readable d') →
  vals d' name ≠ vals d name →
  ∃ tv flags,
    tv ∈ test_varnames ∧
    name = tv +:+ "_hysteresis_test" ∧
    vals d' name = Some (Int32 flags) ∧
    Forall (λ z, z ∈ flag_values) flags ∧
    is_qartod_var name = false ∧
    ∀ sensor, name ∉ sensor_qartod_vars (qartod_vars d') sensor.
Proof.
  intros Hscan Hp Hp' Hne.
  pose proof (scan_file_touched _ _ _ _ _ _ _ _ _ _ _ Hscan Hp Hp') as Ht.
  destruct (touched_vals _ _ _ name Ht)
    as [Heq|(tv & raw & flags & Htv & -> & Hraw & Hch & Hfl)]; [done|].
  exists tv, flags. split; [done|]. split; [done|]. split; [done|].
  split; [by eapply engine_flags_codes|].
  pose proof (qc_name_not_qartod tv Htv) as Hq. split; [done|].
  intros sensor Hin. unfold sensor_qartod_vars, qartod_vars in Hin.
  apply list_elem_of_filter in Hin as [_ Hin].
  apply list_elem_of_filter in Hin as [Hin _]. congruence.
Qed.

Lemma scan_writes_flag_channels_only_witness :
  ∃ r d',
    sample_scan 8 [Readable down_profile; Readable up_profile] = Ok r ∧
    r_files r !! 1%nat = Some (Readable d') ∧
    ∃ tv flags,
      tv ∈ test_varnames ∧
      "temperature_hysteresis_test" = tv +:+ "_hysteresis_test" ∧
      vals d' "temperature_hysteresis_test" = Some (Int32 flags) ∧
      Forall (λ z, z ∈ flag_values) flags ∧
      is_qartod_var "temperature_hysteresis_test" = false ∧
      ∀ sensor,
        "temperature_hysteresis_test" ∉ sensor_qartod_vars (qartod_vars d') sensor.
Proof.
  eexists _, _. split; [vm_compute; reflexivity|]. split; [reflexivity|].
  eapply (scan_writes_flag_channels_only (λ _, Ok 8%Q) id id
            "2024-12-20T00:00:00Z" "ctd_hysteresis_test.py" sample_config
            [Readable down_profile; Readable up_profile] _ 1 up_profile _
            "temperature_hysteresis_test").
  - vm_compute. reflexivity.
  - reflexivity.
  - reflexivity.
  - vm_compute. discriminate.
Defined.

Lemma pair_flag_uniform_witness :
  let thr := {| test_threshold := 1 # 2; suspect_threshold := 1 # 10;
                fail_threshold := 3 # 10 |} in
  let st := {| l_status := 0; l_f2skip := 0; l_ds := down_profile;
               l_ds2 := Some up_profile; l_summary := []; l_log := [] |} in
  ∃ st' d2' flags flags2,
    evaluate_pair (λ _, Ok 8%Q) id "conductivity" (qc_name "conductivity") []
      thr [0; 2]%nat [2; 9; 2]%Z [0; 1]%nat [2; 2; 9]%Z
      (samples [0; 5; 10]%Q) (samples [10; 5; 0]%Q) up_profile st = Ok st' ∧
    is_classification FAIL ∧
    l_ds2 st' = Some d2' ∧
    vals (l_ds st') (qc_name "conductivity") = Some (Int32 flags) ∧
    vals d2' (qc_name "conductivity") = Some (Int32 flags2) ∧
    (∀ j q, [Some 1%Q; None; Some 3%Q] !! j = Some (Some q) →
            flags !! j = Some (code FAIL)) ∧
    (∀ j q, [Some 3%Q; Some 2%Q; None] !! j = Some (Some q) →
            flags2 !! j = Some (code FAIL)).
Proof.
  intros thr st.
  apply (pair_flag_uniform (λ _, Ok 8%Q) id "conductivity" [] thr
           [0; 2]%nat [0; 1]%nat [2; 9; 2]%Z [2; 2; 9]%Z
           (samples [0; 5; 10]%Q) (samples [10; 5; 0]%Q)
           (Float64 [Some 1%Q; None; Some 3%Q])
           (Float64 [Some 3%Q; Some 2%Q; None]) up_profile st FAIL);
    reflexivity.
Defined.

Lemma shallow_profile_degenerate : degenerate shallow_profile.
Proof.
  exists (samples [0; 1; 2]%Q), (Some (2 - 0)%Q). repeat split.
Defined.

Lemma degenerate_not_evaluated_witness :
  let st := {| l_status := 0; l_f2skip := 0; l_ds := shallow_profile;
               l_ds2 := None; l_summary := []; l_log := [] |} in
  let st2 := {| l_status := 0; l_f2skip := 0; l_ds := down_profile;
                l_ds2 := None; l_summary := []; l_log := [] |} in
  let files2 := [Readable down_profile; Readable shallow_profile] in
  (∃ st',
     (∀ polygon_area,
        loop_body polygon_area id id sample_config [Readable shallow_profile]
          0 st "conductivity" = Ok st') ∧
     not_evaluated_only "conductivity" shallow_profile (l_ds st')) ∧
  (∃ st' d2',
     loop_body (λ _, Ok 8%Q) id id sample_config files2 0 st2 "conductivity"
     = Ok st' ∧
     l_ds2 st' = Some d2' ∧
     (∀ polygon_area',
        loop_body polygon_area' id id sample_config files2 0 st2 "conductivity"
        = Ok st') ∧
     not_evaluated_only "conductivity" shallow_profile d2').
Proof.
  intros st st2 files2. split.
  - apply (proj1 (degenerate_not_evaluated id id sample_config
                    [Readable shallow_profile] 0 "conductivity" st
                    ltac:(unfold test_varnames; by left))).
    + exact shallow_profile_degenerate.
    + by eexists.
  - eexists _, _. split; [vm_compute; reflexivity|]. split; [reflexivity|].
    eapply (proj2 (degenerate_not_evaluated id id sample_config files2 0
                     "conductivity" st2 ltac:(unfold test_varnames; by left))
              (λ _, Ok 8%Q)).
    + vm_compute. reflexivity.
    + reflexivity.
    + exact shallow_profile_degenerate.
    + reflexivity.
Defined.

(** ** What a scan leaves alone *)

Lemma dict_get_keys {V} (d : dict V) (k : string) (v : V) :
  dict_get d k = Some v → k ∈ dict_keys d.
Proof.
  unfold dict_keys. induction d as [|[k0 v0] r IH]; simpl; [done|].
  destruct (String.eqb k0 k) eqn:E.
  - apply String.eqb_eq in E as ->. intros _. by left.
  - intros H. right. by apply IH.
Qed.

Lemma dict_keys_set_in {V} (d : dict V) (k : string) (v : V) :
  k ∈ dict_keys d → dict_keys (dict_set d k v) = dict_keys d.
Proof.
  unfold dict_keys. induction d as [|[k0 v0] r IH]; simpl.
  - intros H. by apply elem_of_nil in H.
  - destruct (String.eqb k0 k) eqn:E; simpl; [done|].
    apply String.eqb_neq in E. intros [->|Hin]%elem_of_cons; [done|].
    f_equal. by apply IH.
Qed.

Lemma dict_keys_set_notin {V} (d : dict V) (k : string) (v : V) :
  k ∉ dict_keys d → dict_keys (dict_set d k v) = dict_keys d ++ [k].
Proof.
  unfold dict_keys. induction d as [|[k0 v0] r IH]; simpl; [done|].
  intros Hn. destruct (String.eqb k0 k) eqn:E; simpl.
  - apply String.eqb_eq in E as ->. exfalso. apply Hn. by left.
  - f_equal. apply IH. intros Hin. apply Hn. by right.
Qed.

Lemma append_assoc (a b c : string) : (a +:+ b) +:+ c = a +:+ (b +:+ c).
Proof.
  induction a as [|x a IH]; [done|].
  change (String x ((a +:+ b) +:+ c) = String x (a +:+ (b +:+ c))).
  f_equal. exact IH.
Qed.

Lemma append_empty_r (a : string) : a +:+ "" = a.
Proof.
  induction a as [|x a IH]; [done|].
  change (String x (a +:+ "") = String x a). f_equal. exact IH.
Qed.

Lemma linked_frame (d d' : Dataset) (v qc : string) :
  linked d v qc d' →
  time d' = time d ∧ history d' = history d ∧
  dict_keys (data_vars d') = dict_keys (data_vars d).
Proof.
  intros (da & da' & Hda & _ & ->). simpl. repeat split.
  apply dict_keys_set_in. by eapply dict_get_keys.
Qed.

Lemma touched_time (P : Prop) (d d' : Dataset) :
  touched P d d' → time d' = time d.
Proof.
  induction 1 as [|d' tv raw flags attrs _ IH Htv Hraw Hfl
                  |d' d'' v tv _ IH Htv Hl|d' h _ IH Hh]; try done.
  by destruct (linked_frame _ _ _ _ Hl) as (-> & _).
Qed.

(** The history of a touched file begins with the history it had. *)
Lemma touched_history_prefix (P : Prop) (d d' : Dataset) (h : string) :
  touched P d d' → history d = Some h →
  ∃ suffix, history d' = Some (h +:+ suffix).
Proof.
  intros Ht Hh.
  induction Ht as [|d' tv raw flags attrs _ IH Htv Hraw Hfl
                   |d' d'' v tv _ IH Htv Hl|d' h' _ IH Hext].
  - exists "". by rewrite append_empty_r.
  - done.
  - by destruct (linked_frame _ _ _ _ Hl) as (_ & -> & _).
  - destruct IH as [s1 Hs1]. rewrite Hs1 in Hext. destruct Hext as [s2 ->].
    exists (s1 +:+ s2). simpl. by rewrite append_assoc.
Qed.

(** The variables of a touched file are the ones it had, in their order,
    followed by the flag channels that were new. *)
Lemma touched_keys (P : Prop) (d d' : Dataset) :
  touched P d d' →
  ∃ added,
    dict_keys (data_vars d') = dict_keys (data_vars d) ++ added ∧
    Forall (λ k, ∃ tv, tv ∈ test_varnames ∧ k = qc_name tv) added.
Proof.
  induction 1 as [|d' tv raw flags attrs _ IH Htv Hraw Hfl
                  |d' d'' v tv _ IH Htv Hl|d' h _ IH Hh].
  - exists []. split; [by rewrite app_nil_r|constructor].
  - destruct IH as (added & Hk & Ha). simpl.
    destruct (decide (qc_name tv ∈ dict_keys (data_vars d'))) as [Hin|Hnin].
    + rewrite dict_keys_set_in by done. by exists added.
    + rewrite dict_keys_set_notin by done.
      exists (added ++ [qc_name tv]). split.
      * by rewrite Hk, app_assoc.
      * apply Forall_app. split; [done|]. constructor; [by exists tv|constructor].
  - destruct (linked_frame _ _ _ _ Hl) as (_ & _ & ->). done.
  - done.
Qed.

(** X5: a scan keeps the queue: the number of files, which of them cannot be
    read, the time axis of every file and its variables in their order; the
    only variables it adds are flag channels of tested variables, at the
    end. *)
Theorem scan_keeps_files (polygon_area : list (Q * Q) → result Q)
    (interpolate : list float → list float)
    (convert_epoch_ts : list Q → list Q) (now script : string)
    (config_dict : dict thresholds) (files : list file) (r : run) :
  scan polygon_area interpolate convert_epoch_ts now script config_dict files
  = Ok r →
  length (r_files r) = length files ∧
  ∀ p,
    (files !! p = Some Unreadable → r_files r !! p = Some Unreadable) ∧
    (∀ d, files !! p = Some (Readable d) →
          ∃ d' added,
            r_files r !! p = Some (Readable d') ∧
            time d' = time d ∧
            dict_keys (data_vars d') = dict_keys (data_vars d) ++ added ∧
            Forall (λ k, ∃ tv, tv ∈ test_varnames ∧ k = qc_name tv) added).
Proof.
  intros Hscan. apply scan_touched in Hscan.
  split; [symmetry; by eapply Forall2_length|].
  intros p. split.
  - intros Hp. destruct (Forall2_lookup_l _ _ _ _ _ Hscan Hp) as (f' & Hf' & Hft).
    by destruct f'.
  - intros d Hp.
    destruct (Forall2_lookup_l _ _ _ _ _ Hscan Hp) as (f' & Hf' & Hft).
    destruct f' as [d'|]; [|done]. simpl in Hft.
    destruct (touched_keys _ _ _ Hft) as (added & Hk & Ha).
    exists d', added. split; [done|]. split; [by eapply touched_time|done].
Qed.

Lemma scan_keeps_files_witness :
  ∃ r,
    sample_scan 8 [Readable down_profile; Readable up_profile; Unreadable] = Ok r ∧
    length (r_files r) = 3%nat ∧
    ∀ p,
      ([Readable down_profile; Readable up_profile; Unreadable] !! p
       = Some Unreadable → r_files r !! p = Some Unreadable) ∧
      (∀ d, [Readable down_profile; Readable up_profile; Unreadable] !! p
            = Some (Readable d) →
            ∃ d' added,
              r_files r !! p = Some (Readable d') ∧
              time d' = time d ∧
              dict_keys (data_vars d') = dict_keys (data_vars d) ++ added ∧
              Forall (λ k, ∃ tv, tv ∈ test_varnames ∧ k = qc_name tv) added).
Proof.
  eexists. split; [vm_compute; reflexivity|].
  apply (scan_keeps_files (λ _, Ok 8%Q) id id "2024-12-20T00:00:00Z"
           "ctd_hysteresis_test.py" sample_config
           [Readable down_profile; Readable up_profile; Unreadable]).
  vm_compute. reflexivity.
Defined.

(** X6: the history of a file is append-only: after a scan the history
    attribute of a file that had one begins with the text it had. *)
Theorem scan_history_append_only (polygon_area : list (Q * Q) → result Q)
    (interpolate : list float → list float)
    (convert_epoch_ts : list Q → list Q) (now script : string)
    (config_dict : dict thresholds) (files : list file) (r : run) (p : nat)
    (d d' : Dataset) (h : string) :
  scan polygon_area interpolate convert_epoch_ts now script config_dict files
  = Ok r →
  files !! p = Some (Readable d) →
  r_files r !! p = Some (Readable d') →
  history d = Some h →
  ∃ suffix, history d' = Some (h +:+ suffix).
Proof.
  intros Hscan Hp Hp' Hh.
  pose proof (scan_file_touched _ _ _ _ _ _ _ _ _ _ _ Hscan Hp Hp') as Ht.
  by eapply touched_history_prefix.
Qed.

Lemma scan_history_append_only_witness :
  ∃ r d' suffix,
    sample_scan 8 [Readable (set_history down_profile "created")] = Ok r ∧
    r_files r !! 0%nat = Some (Readable d') ∧
    history d' = Some ("created" +:+ suffix).
Proof.
  eexists _, _.
  assert (H : ∀ r d',
    sample_scan 8 [Readable (set_history down_profile "created")] = Ok r →
    r_files r !! 0%nat = Some (Readable d') →
    ∃ suffix, history d' = Some ("created" +:+ suffix)).
  { intros r d' Hr Hd'.
    exact (scan_history_append_only (λ _, Ok 8%Q) id id "2024-12-20T00:00:00Z"
            "ctd_hysteresis_test.py" sample_config _ r 0
            (set_history down_profile "created") d' "created" Hr eq_refl Hd'
            eq_refl). }
  edestruct (H _ _ ltac:(vm_compute; reflexivity) ltac:(reflexivity))
    as [suffix Hs].
  exists suffix. split; [vm_compute; reflexivity|]. split; [reflexivity|].
  exact Hs.
Defined.

(** ** The mask of the earlier tests *)

Lemma set_nan_spec (a0 a1 : ndarray) (idx : list nat) :
  set_nan a0 idx = Ok a1 →
  length (as_float a1) = length (as_float a0) ∧
  ∀ j x, as_float a0 !! j = Some x →
         as_float a1 !! j = Some (if decide (j ∈ idx) then None else x).
Proof.
  destruct a0 as [v|v]; simpl.
  - intros H. inv_ok H as v' Hv'. injection H as <-. simpl.
    apply set_index_inv in Hv' as [Hlen Hlook]. split; [done|].
    intros j x Hj. unfold float in *. rewrite Hlook by by eapply lookup_lt_Some.
    rewrite Hj. by destruct (decide (j ∈ idx)).
  - destruct (forallb _ idx); [|discriminate].
    destruct idx; [|discriminate]. intros [= <-]. split; [done|].
    intros j x Hj. destruct (decide (j ∈ [])) as [Hin|]; [|done].
    by apply elem_of_nil in Hin.
Qed.

Lemma elem_of_flagged_idx (d : Dataset) (qv : string) (qda : DataArray) (j : nat) :
  getitem d qv = Some qda →
  j ∈ np_where (flagged <$> as_float (values qda)) ↔ flagged_by d j qv = true.
Proof.
  intros Hq. unfold flagged_by. rewrite Hq, elem_of_np_where, list_lookup_fmap.
  destruct (as_float (values qda) !! j) as [y|]; simpl; [|done].
  split; [by intros [=]|by intros ->].
Qed.

Lemma foldl_Raise {A B} (f : B → result A) (l : list B) (e : exn) :
  foldl (λ acc x, a ← acc; f x) (Raise e) l = Raise e.
Proof. induction l as [|x l IH]; [done|]. exact IH. Qed.

Lemma mask_fold (d : Dataset) (l : list string) (a0 a : ndarray) :
  foldl (λ acc qv,
           datacopy ← acc;
           match getitem d qv with
           | None => Raise KeyError
           | Some qda =>
               set_nan datacopy
                 (np_where (flagged <$> as_float (values qda)))
           end) (Ok a0) l = Ok a →
  length (as_float a) = length (as_float a0) ∧
  ∀ j x, as_float a0 !! j = Some x →
         as_float a !! j
         = Some (if existsb (flagged_by d j) l then None else x).
Proof.
  revert a0. induction l as [|qv l IH]; intros a0; simpl.
  - intros [= <-]. done.
  - destruct (getitem d qv) as [qda|] eqn:Hq.
    + destruct (set_nan a0 _) as [a1|e] eqn:Hset.
      * intros H. apply IH in H as [Hlen Hlook].
        apply set_nan_spec in Hset as [Hlen1 Hlook1].
        split; [congruence|]. intros j x Hj.
        rewrite (Hlook j _ (Hlook1 j x Hj)).
        destruct (decide (j ∈ _)) as [Hin|Hnin].
        -- apply (elem_of_flagged_idx _ _ _ _ Hq) in Hin. rewrite Hin. simpl.
           by destruct (existsb _ l).
        -- destruct (flagged_by d j qv) eqn:E; [|done].
           exfalso. by apply Hnin, (elem_of_flagged_idx _ _ _ _ Hq).
      * intros H. exfalso. revert H. clear.
        induction l as [|y l IH]; [done|exact IH].
    + intros H. exfalso. revert H. clear.
      induction l as [|y l IH]; [done|exact IH].
Qed.

(** The copy of [apply_qartod_qc], sample by sample. *)
Lemma apply_qartod_qc_lookup (d : Dataset) (varname : string) (da : DataArray)
    (a : ndarray) :
  getitem d varname = Some da →
  apply_qartod_qc d varname = Ok a →
  length (as_float a) = length (as_float (values da)) ∧
  ∀ j x, as_float (values da) !! j = Some x →
    as_float a !! j = Some (if masked d varname j then None else x).
Proof.
  intros Hda H. unfold apply_qartod_qc in H. rewrite Hda in H.
  by apply mask_fold in H.
Qed.

(** The codes that mask a sample. *)
Lemma flagged_codes (y : float) :
  flagged y = true ↔ ∃ q, y = Some q ∧ (q == 2 ∨ q == 3 ∨ q == 4)%Q.
Proof.
  destruct y as [q|]; simpl.
  - rewrite !orb_true_iff, !Qeq_bool_iff. split.
    + intros H. exists q. split; [done|tauto].
    + intros (q' & [= <-] & H). tauto.
  - split; [done|]. by intros (q & [=] & _).
Qed.

Lemma masked_codes (d : Dataset) (varname : string) (j : nat) :
  masked d varname j = true ↔
  ∃ qv qda q, qv ∈ dict_keys (data_vars d) ∧
              str_in (varname +:+ "_qartod") qv = true ∧
              getitem d qv = Some qda ∧
              as_float (values qda) !! j = Some (Some q) ∧
              (q == 2 ∨ q == 3 ∨ q == 4)%Q.
Proof.
  unfold masked, qartod_channels. split.
  - intros Hm. apply existsb_exists in Hm as (qv & Hin & Hf).
    apply list_elem_of_In, list_elem_of_filter in Hin as [Hs Hin].
    unfold flagged_by in Hf.
    destruct (getitem d qv) as [qda|] eqn:Hq; [|done].
    destruct (as_float (values qda) !! j) as [y|] eqn:Hy; [|done].
    apply flagged_codes in Hf as (q & -> & Hc). by exists qv, qda, q.
  - intros (qv & qda & q & Hin & Hs & Hq & Hy & Hc).
    apply existsb_exists. exists qv. split.
    + apply list_elem_of_In, list_elem_of_filter. done.
    + unfold flagged_by. rewrite Hq. unfold float in *. rewrite Hy.
      apply flagged_codes. by exists q.
Qed.

(** X7: the mask of [apply_qartod_qc]. When it returns, the copy has the
    length of the variable. A sample is NaN in the copy when some channel of
    the dataset whose name contains ["<varname>_qartod"] holds the code 2, 3
    or 4 there; it is the raw sample when every such channel holds a code
    other than 2, 3 and 4 there (1 and 9 among them). *)
Theorem apply_qartod_qc_mask (d : Dataset) (varname : string) (da : DataArray)
    (a : ndarray) :
  getitem d varname = Some da →
  apply_qartod_qc d varname = Ok a →
  length (as_float a) = length (as_float (values da)) ∧
  ∀ j x, as_float (values da) !! j = Some x →
    ((∃ qv qda q, qv ∈ dict_keys (data_vars d) ∧
                  str_in (varname +:+ "_qartod") qv = true ∧
                  getitem d qv = Some qda ∧
                  as_float (values qda) !! j = Some (Some q) ∧
                  (q == 2 ∨ q == 3 ∨ q == 4)%Q) →
     as_float a !! j = Some None) ∧
    ((∀ qv qda q, qv ∈ dict_keys (data_vars d) →
                  str_in (varname +:+ "_qartod") qv = true →
                  getitem d qv = Some qda →
                  as_float (values qda) !! j = Some (Some q) →
                  ¬ (q == 2)%Q ∧ ¬ (q == 3)%Q ∧ ¬ (q == 4)%Q) →
     as_float a !! j = Some x).
Proof.
  intros Hda Ha.
  destruct (apply_qartod_qc_lookup _ _ _ _ Hda Ha) as [Hlen Hlook].
  split; [done|]. intros j x Hj. specialize (Hlook j x Hj). split.
  - intros Hm. apply masked_codes in Hm. rewrite Hm in Hlook. exact Hlook.
  - intros Hnone. destruct (masked d varname j) eqn:Hm; [|exact Hlook].
    apply masked_codes in Hm as (qv & qda & q & Hin & Hs & Hq & Hy & Hc).
    destruct (Hnone qv qda q Hin Hs Hq Hy) as (H2 & H3 & H4). tauto.
Qed.

Lemma apply_qartod_qc_mask_witness :
  let raw := [Some 1%Q; Some 2%Q; Some 3%Q; Some 4%Q; Some 5%Q] in
  let copy := [Some 1%Q; None; None; None; Some 5%Q] in
  apply_qartod_qc coded_profile "conductivity" = Ok (Float64 copy) ∧
  length copy = length raw ∧
  ∀ j x, raw !! j = Some x →
    ((∃ qv qda q, qv ∈ dict_keys (data_vars coded_profile) ∧
                  str_in ("conductivity" +:+ "_qartod") qv = true ∧
                  getitem coded_profile qv = Some qda ∧
                  as_float (values qda) !! j = Some (Some q) ∧
                  (q == 2 ∨ q == 3 ∨ q == 4)%Q) →
     copy !! j = Some None) ∧
    ((∀ qv qda q, qv ∈ dict_keys (data_vars coded_profile) →
                  str_in ("conductivity" +:+ "_qartod") qv = true →
                  getitem coded_profile qv = Some qda →
                  as_float (values qda) !! j = Some (Some q) →
                  ¬ (q == 2)%Q ∧ ¬ (q == 3)%Q ∧ ¬ (q == 4)%Q) →
     copy !! j = Some x).
Proof.
  intros raw copy. split; [reflexivity|].
  exact (apply_qartod_qc_mask coded_profile "conductivity"
           (channel (Float64 raw)) (Float64 copy) eq_refl eq_refl).
Defined.

Lemma dict_keys_get {V} (d : dict V) (k : string) :
  k ∈ dict_keys d → is_Some (dict_get d k).
Proof.
  unfold dict_keys. induction d as [|[k0 v0] r IH]; simpl.
  - intros H. by apply elem_of_nil in H.
  - destruct (String.eqb k0 k) eqn:E; [by eexists|].
    apply String.eqb_neq in E. intros [->|Hin]%elem_of_cons; [done|].
    by apply IH.
Qed.

Lemma mask_fold_returns (d : Dataset) (l : list string) (n : nat)
    (v : list float) :
  length v = n →
  (∀ qv, qv ∈ l →
         ∃ qda, getitem d qv = Some qda ∧
                length (as_float (values qda)) ≤ n) →
  ∃ out,
    foldl (λ acc qv,
             datacopy ← acc;
             match getitem d qv with
             | None => Raise KeyError
             | Some qda =>
                 set_nan datacopy
                   (np_where (flagged <$> as_float (values qda)))
             end) (Ok (Float64 v)) l = Ok (Float64 out) ∧
    length out = n.
Proof.
  revert v. induction l as [|qv l IH]; intros v Hv Hl; simpl.
  - by exists v.
  - destruct (Hl qv) as (qda & Hq & Hle); [by left|]. rewrite Hq.
    unfold set_index.
    assert (Hall : forallb (λ i, i <? length v)%nat
                     (np_where (flagged <$> as_float (values qda))) = true).
    { apply forallb_forall. intros j Hj. apply list_elem_of_In in Hj.
      apply elem_of_np_where, lookup_lt_Some in Hj.
      rewrite length_fmap in Hj. apply Nat.ltb_lt. lia. }
    rewrite Hall. cbn [mbind result_bind].
    apply IH.
    + by rewrite foldr_insert_length.
    + intros qv' Hqv'. apply Hl. by right.
Qed.

(** X8: [apply_qartod_qc] returns a float copy whenever the variable is a
    float array and no channel it reads is longer than the variable. *)
Theorem apply_qartod_qc_returns (d : Dataset) (varname : string)
    (da : DataArray) (raw : list float) :
  getitem d varname = Some da →
  values da = Float64 raw →
  (∀ qv qda, qv ∈ qartod_channels d varname →
             getitem d qv = Some qda →
             length (as_float (values qda)) ≤ length raw) →
  ∃ out, apply_qartod_qc d varname = Ok (Float64 out) ∧
         length out = length raw.
Proof.
  intros Hda Hraw Hlen. unfold apply_qartod_qc. rewrite Hda, Hraw.
  apply mask_fold_returns; [done|].
  intros qv Hqv. fold (qartod_channels d varname) in Hqv.
  assert (Hk : qv ∈ dict_keys (data_vars d)).
  { unfold qartod_channels in Hqv. by apply list_elem_of_filter in Hqv as [_ ?]. }
  destruct (dict_keys_get _ _ Hk) as [qda Hq].
  exists qda. split; [done|]. by apply (Hlen qv).
Qed.

Lemma apply_qartod_qc_returns_witness :
  ∃ out, apply_qartod_qc spiked_profile "conductivity" = Ok (Float64 out) ∧
         length out = length [Some 1%Q; None; Some 3%Q].
Proof.
  apply (apply_qartod_qc_returns spiked_profile "conductivity"
           (channel (Float64 [Some 1%Q; None; Some 3%Q]))
           [Some 1%Q; None; Some 3%Q] eq_refl eq_refl).
  intros qv qda Hqv Hq. vm_compute in Hqv.
  apply list_elem_of_singleton in Hqv as ->.
  vm_compute in Hq. injection Hq as <-. simpl. lia.
Defined.

(** ** Pairs that cannot be classified *)

Lemma valid_nil (l : list float) :
  valid l = [] ↔ ∀ j q, l !! j ≠ Some (Some q).
Proof.
  unfold valid. induction l as [|x l IH]; simpl.
  - split; [by intros _ j q|done].
  - destruct x as [q|]; simpl.
    + split; [done|]. intros H. by destruct (H 0%nat q).
    + rewrite IH. split.
      * intros H [|j] q; [done|]. apply H.
      * intros H j q. apply (H (S j) q).
Qed.

Lemma fully_masked (d : Dataset) (tv : string) (da : DataArray) (a : ndarray) :
  getitem d tv = Some da →
  apply_qartod_qc d tv = Ok a →
  (∀ j q, as_float (values da) !! j = Some (Some q) → masked d tv j = true) →
  has_data (as_float a) = false.
Proof.
  intros Hda Ha Hall. unfold has_data.
  enough (valid (as_float a) = []) as -> by done.
  apply valid_nil. intros j q Hj.
  pose proof (apply_qartod_qc_masks _ _ _ _ _ _ Hda Ha Hj) as Hraw.
  destruct (apply_qartod_qc_lookup _ _ _ _ Hda Ha) as [_ Hlook].
  specialize (Hlook j _ Hraw).
  rewrite (Hall j q Hraw) in Hlook. congruence.
Qed.

(** X9: if the earlier tests flag (2, 3 or 4) every defined sample of the
    tested variable on the current profile or on the lookahead, the pair is
    not classified, whatever the geometry and the thresholds: both profiles
    are committed with the flag arrays they came with, the lookahead is
    counted as consumed and the status is unchanged. *)
Theorem fully_masked_pair_not_evaluated
    (polygon_area : list (Q * Q) → result Q)
    (interpolate : list float → list float) (tv qc : string) (attrs : dict attr)
    (thr : thresholds) (data_idx data_idx2 : list nat)
    (flag_vals flag_vals2 : list Z) (pc pc2 data_copy data_copy2 : ndarray)
    (da da2 : DataArray) (d2 : Dataset) (st : locals) :
  getitem (l_ds st) tv = Some da →
  getitem d2 tv = Some da2 →
  apply_qartod_qc (l_ds st) tv = Ok data_copy →
  apply_qartod_qc d2 tv = Ok data_copy2 →
  (∀ j q, as_float (values da) !! j = Some (Some q) →
          masked (l_ds st) tv j = true) ∨
  (∀ j q, as_float (values da2) !! j = Some (Some q) →
          masked d2 tv j = true) →
  ∃ st' d2',
    evaluate_pair polygon_area interpolate tv qc attrs thr data_idx flag_vals
      data_idx2 flag_vals2 pc pc2 d2 st = Ok st' ∧
    st' = both_not_evaluated tv qc attrs flag_vals flag_vals2 d2 st ∧
    vals (l_ds st') qc = Some (Int32 flag_vals) ∧
    l_ds2 st' = Some d2' ∧
    vals d2' qc = Some (Int32 flag_vals2) ∧
    l_f2skip st' = (l_f2skip st + 1)%nat ∧
    l_status st' = l_status st.
Proof.
  intros Hda Hda2 Hdc Hdc2 Hm.
  exists (both_not_evaluated tv qc attrs flag_vals flag_vals2 d2 st),
         (add_da d2 flag_vals2 attrs tv qc).
  split.
  - unfold evaluate_pair. rewrite Hdc, Hdc2. cbn [mbind result_bind].
    destruct Hm as [Hm|Hm].
    + by rewrite (fully_masked _ _ _ _ Hda Hdc Hm).
    + rewrite (fully_masked _ _ _ _ Hda2 Hdc2 Hm). by rewrite andb_false_r.
  - split; [done|]. unfold both_not_evaluated.
    cbn [l_ds l_ds2 l_f2skip l_status incr_f2skip count set_summary set_ds2 set_ds].
    rewrite !vals_add_da, String.eqb_refl. done.
Qed.

Lemma fully_masked_pair_not_evaluated_witness :
  let st := {| l_status := 0; l_f2skip := 0; l_ds := masked_profile;
               l_ds2 := Some up_profile; l_summary := []; l_log := [] |} in
  ∃ st' d2',
    evaluate_pair (λ _, Ok 8%Q) id "conductivity" "conductivity_hysteresis_test"
      [] {| test_threshold := 1 # 2; suspect_threshold := 1 # 10;
            fail_threshold := 3 # 10 |}
      [0; 2]%nat [2; 9; 2]%Z [0; 1]%nat [2; 2; 9]%Z
      (samples [0; 5; 10]%Q) (samples [10; 5; 0]%Q) up_profile st = Ok st' ∧
    st' = both_not_evaluated "conductivity" "conductivity_hysteresis_test" []
            [2; 9; 2]%Z [2; 2; 9]%Z up_profile st ∧
    vals (l_ds st') "conductivity_hysteresis_test" = Some (Int32 [2; 9; 2]%Z) ∧
    l_ds2 st' = Some d2' ∧
    vals d2' "conductivity_hysteresis_test" = Some (Int32 [2; 2; 9]%Z) ∧
    l_f2skip st' = (0 + 1)%nat ∧
    l_status st' = 0%Z.
Proof.
  intros st.
  apply (fully_masked_pair_not_evaluated (λ _, Ok 8%Q) id "conductivity"
           "conductivity_hysteresis_test" []
           {| test_threshold := 1 # 2; suspect_threshold := 1 # 10;
              fail_threshold := 3 # 10 |}
           [0; 2]%nat [0; 1]%nat [2; 9; 2]%Z [2; 2; 9]%Z
           (samples [0; 5; 10]%Q) (samples [10; 5; 0]%Q)
           (Float64 [None; None; None])
           (Float64 [Some 3%Q; Some 2%Q; None])
           (channel (Float64 [Some 1%Q; None; Some 3%Q]))
           (channel (Float64 [Some 3%Q; Some 2%Q; None])) up_profile st);
    try reflexivity.
  left. intros [|[|[|j]]] q Hj; try reflexivity; discriminate.
Defined.

(** X10: if both masked channels have data but no row of either profile has
    both a defined pressure and a defined sample, the ranges are taken of an
    empty column: the pair evaluation raises [ValueError], which nothing in
    [main] catches. *)
Theorem empty_points_raise (polygon_area : list (Q * Q) → result Q)
    (interpolate : list float → list float) (tv qc : string) (attrs : dict attr)
    (thr : thresholds) (data_idx data_idx2 : list nat)
    (flag_vals flag_vals2 : list Z) (pc pc2 data_copy data_copy2 : ndarray)
    (d2 : Dataset) (st : locals) :
  apply_qartod_qc (l_ds st) tv = Ok data_copy →
  apply_qartod_qc d2 tv = Ok data_copy2 →
  has_data (as_float data_copy) = true →
  has_data (as_float data_copy2) = true →
  pair_points interpolate (as_float data_copy) (as_float pc)
    (as_float data_copy2) (as_float pc2) = [] →
  evaluate_pair polygon_area interpolate tv qc attrs thr data_idx flag_vals
    data_idx2 flag_vals2 pc pc2 d2 st
  = Raise ValueError.
Proof.
  intros Hdc Hdc2 Hh Hh2 Hp. unfold evaluate_pair. rewrite Hdc, Hdc2.
  cbn [mbind result_bind]. rewrite Hh, Hh2. cbn [andb]. by rewrite Hp.
Qed.

Lemma empty_points_raise_witness :
  let st := {| l_status := 0; l_f2skip := 0; l_ds := gappy_down;
               l_ds2 := Some gappy_up; l_summary := []; l_log := [] |} in
  evaluate_pair (λ _, Ok 8%Q) id "conductivity" "conductivity_hysteresis_test"
    [] {| test_threshold := 1 # 2; suspect_threshold := 1 # 10;
          fail_threshold := 3 # 10 |}
    [1]%nat [9; 2; 9]%Z [1]%nat [9; 2; 9]%Z
    (Float64 [Some 0; None; Some 10]%Q) (Float64 [Some 10; None; Some 0]%Q)
    gappy_up st
  = Raise ValueError.
Proof.
  intros st.
  apply (empty_points_raise (λ _, Ok 8%Q) id "conductivity"
           "conductivity_hysteresis_test" [] _ [1]%nat [1]%nat
           [9; 2; 9]%Z [9; 2; 9]%Z
           (Float64 [Some 0; None; Some 10]%Q)
           (Float64 [Some 10; None; Some 0]%Q)
           (Float64 [None; Some 1; None]%Q) (Float64 [None; Some 2; None]%Q)
           gappy_up st); reflexivity.
Defined.

(** The same pair in a queue: the scan ends with the exception. *)
Lemma gappy_pair_aborts_scan :
  sample_scan 8 [Readable gappy_down; Readable gappy_up] = Raise ValueError.
Proof. reflexivity. Qed.

(** ** Thresholds in the wrong order *)

(** X11: the thresholds are not checked for their order. With
    [fail_threshold <= suspect_threshold] no pair is ever classified
    SUSPECT: what exceeds the suspect ratio exceeds the fail ratio. *)
Theorem suspect_unreachable (polygon_area : list (Q * Q) → result Q)
    (thr : thresholds) (df : list (Q * Q)) :
  (fail_threshold thr <= suspect_threshold thr)%Q →
  hysteresis_flag polygon_area thr df ≠ Ok SUSPECT.
Proof.
  intros Hle H. unfold hysteresis_flag in H.
  inv_ok H as pr Hpr. inv_ok H as dr Hdr.
  destruct (Qltb (test_threshold thr) dr); [|done].
  inv_ok H as ring Hring. inv_ok H as a Ha. injection H as H.
  unfold area_flag in H. apply column_range_nonneg in Hdr.
  destruct (np_gt _ (dr * fail_threshold thr)) eqn:F; [done|].
  destruct (np_gt _ (dr * suspect_threshold thr)) eqn:S; [|done].
  assert (Hm : (dr * fail_threshold thr <= dr * suspect_threshold thr)%Q) by nra.
  rewrite (np_gt_mono _ _ _ Hm S) in F. done.
Qed.

Lemma suspect_unreachable_witness :
  hysteresis_flag (λ _, Ok 8%Q)
    {| test_threshold := 1 # 2; suspect_threshold := 3 # 10;
       fail_threshold := 1 # 10 |}
    [(1, 0); (3, 10); (3, 10); (2, 5)]%Q ≠ Ok SUSPECT.
Proof.
  apply (suspect_unreachable (λ _, Ok 8%Q)
           {| test_threshold := 1 # 2; suspect_threshold := 3 # 10;
              fail_threshold := 1 # 10 |}
           [(1, 0); (3, 10); (3, 10); (2, 5)]%Q).
  simpl. lra.
Defined.

(** ** Counting the defined samples *)

Lemma where_from_valid (v : list float) (k : nat) :
  length (where_from k ((λ x, negb (isnan x)) <$> v)) = length (valid v).
Proof.
  unfold valid. revert k. induction v as [|x v IH]; intros k; [done|].
  destruct x as [q|]; simpl; [f_equal|]; apply IH.
Qed.

(** X12: the index array of [initialize_flags] has one entry per defined
    sample, so it is empty (and [main] skips the variable for the file)
    exactly when every sample of the variable is NaN. *)
Theorem initialize_flags_counts (dataset : Dataset) (varname : string)
    (da : DataArray) (non_nan_i : list nat) (flags : list Z) :
  getitem dataset varname = Some da →
  initialize_flags dataset varname = Ok (non_nan_i, flags) →
  length non_nan_i = length (valid (as_float (values da))) ∧
  (length non_nan_i = 0%nat ↔
   ∀ j x, as_float (values da) !! j = Some x → x = None).
Proof.
  intros Hda H. apply (initialize_flags_getitem _ _ _ _ _ Hda) in H as [-> ->].
  assert (Hlen : length (initial_flags (values da)).1
                 = length (valid (as_float (values da)))).
  { unfold initial_flags, np_where. simpl. apply where_from_valid. }
  split; [done|]. rewrite Hlen. rewrite length_zero_iff_nil, valid_nil.
  split.
  - intros H j [q|] Hj; [|done]. by destruct (H j q).
  - intros H j q Hj. by specialize (H j _ Hj).
Qed.

Lemma initialize_flags_counts_witness :
  length [0; 2]%nat = length (valid [Some 1%Q; None; Some 3%Q]) ∧
  (length [0; 2]%nat = 0%nat ↔
   ∀ j x, [Some 1%Q; None; Some 3%Q] !! j = Some x → x = None).
Proof.
  exact (initialize_flags_counts down_profile "conductivity"
           (channel (Float64 [Some 1%Q; None; Some 3%Q])) [0; 2]%nat
           [2; 9; 2]%Z eq_refl eq_refl).
Defined.

(** ** Linking twice *)

Lemma attr_set_get (a : dict attr) (k : string) (v : attr) :
  dict_get (dict_set a k v) k = Some v.
Proof. by rewrite dict_get_set, String.eqb_refl. Qed.

(** X13: the linkage is not idempotent. Appending a channel name to a data
    array that was just given that name succeeds and leaves the name twice in
    [ancillary_variables], blank separated; the samples are not touched. *)
Theorem append_twice_duplicates (data_array a1 : DataArray) (qc : string) :
  append_ancillary_variables data_array qc = Ok a1 →
  ∃ s a2,
    dict_get (attrs a1) "ancillary_variables" = Some (AttrStr s) ∧
    append_ancillary_variables a1 qc = Ok a2 ∧
    dict_get (attrs a2) "ancillary_variables"
    = Some (AttrStr (s +:+ " " +:+ qc)) ∧
    values a2 = values data_array.
Proof.
  unfold append_ancillary_variables at 1.
  destruct (dict_get (attrs data_array) "ancillary_variables") as [[old| | |]|];
    try discriminate; intros [= <-]; eexists _, _;
    unfold append_ancillary_variables; simpl;
    rewrite !attr_set_get; (split; [reflexivity|]);
    (split; [reflexivity|]); simpl; by rewrite attr_set_get.
Qed.

Lemma append_twice_duplicates_witness :
  ∃ s a2,
    dict_get [("ancillary_variables", AttrStr "conductivity_hysteresis_test")]
      "ancillary_variables" = Some (AttrStr s) ∧
    append_ancillary_variables
      {| values := Float64 [Some 1%Q];
         attrs := [("ancillary_variables",
                    AttrStr "conductivity_hysteresis_test")] |}
      "conductivity_hysteresis_test" = Ok a2 ∧
    dict_get (attrs a2) "ancillary_variables"
    = Some (AttrStr (s +:+ " " +:+ "conductivity_hysteresis_test")) ∧
    values a2 = Float64 [Some 1%Q].
Proof.
  exact (append_twice_duplicates (channel (Float64 [Some 1%Q])) _
           "conductivity_hysteresis_test" eq_refl).
Defined.

(** ** The pressure floor *)








(** ** Committing a channel again *)



(** ** The loop over the files is a forward pass *)








(** The stale skip in a whole scan: the fourth file is a down profile, and
    it ends the scan without flags or history. *)
Lemma stale_skip_in_scan :
  ∃ r, sample_scan 8 [Readable down_profile; Readable up_profile;
                      Unreadable; Readable down_profile] = Ok r ∧
       r_files r !! 3%nat = Some (Readable down_profile) ∧
       r_log r = [ErrorReadingFile 2].
Proof. eexists. split; [vm_compute; reflexivity|]. split; reflexivity. Qed.

(** ** A queue of unreadable files *)




(** ** The books of the loop body *)

Lemma status_log_refl (st st' : locals) :
  l_status st' = l_status st → l_log st' = l_log st → status_log st st'.
Proof. intros. by left. Qed.







(** ** The status and the log of a scan *)





(** ** The counters of a scan *)









(** ** The summary flag of a sensor *)







